(** * envtpl: template rendering with environment variables

    A shallow embedding of [envtpl.py] (single-file mode) and [renvtpl.py]
    (recursive mode), and the properties of their specification.

    Python text is modelled by [string]; a character stands for the code
    point of the same number.  Exceptions are an error type [exn] and
    fallible code returns a [result].  Code that reads or changes the
    process environment, the file system or the standard streams is a
    function of an explicit [world]. *)

From Equations Require Import Equations.
From stdpp Require Import gmap strings list sorting pretty.
From Stdlib Require Import Ascii String ZArith Lia.

Local Open Scope string_scope.
Local Open Scope Z_scope.
Local Open Scope nat_scope.

(* Appending to a text that starts with a character simplifies. *)
#[local] Arguments String.append !_ _ / : assert.

(** ** Python values and built-ins *)

Module Py.

(** The exceptions that the two programs raise or let through. *)
Inductive exn : Type :=
| Fatal (msg : string)                     (* envtpl.Fatal *)
| UndefinedError (msg : string)            (* jinja2.UndefinedError *)
| TemplateNotFound (name : string)         (* jinja2.TemplateNotFound, an IOError *)
| NotModelled (what : string)              (* behaviour outside this embedding *)
| Exception (msg : string)                 (* plain Exception *)
| IndexError (msg : string)
| CalledProcessError (returncode : Z) (cmd : string)
| TemplateSyntaxError (msg : string)       (* jinja2.TemplateSyntaxError *)
| IOError (msg : string)                   (* IOError, the same class as OSError *)
| SystemExit (code : Z).                   (* raised by sys.exit *)

Inductive result (A : Type) : Type :=
| Ok (a : A)
| Raise (e : exn).
Arguments Ok {A} a.
Arguments Raise {A} e.

(** Sequencing: an exception ends the computation.  With these instances
    [x ← r; k] runs [k] on the value of [r]. *)
#[export] Instance result_ret : MRet result := fun A a => Ok a.
#[export] Instance result_bind : MBind result := fun A B k r =>
  match r with
  | Ok a => k a
  | Raise e => Raise e
  end.

(** The line feed, ['\n']. *)
Definition LF : ascii := "010"%char.
Definition nl : string := String LF "".

(** [s.split(sep)] for a separator of one character: never empty. *)
Fixpoint split (sep : ascii) (s : string) : list string :=
  match s with
  | EmptyString => [""]
  | String c t =>
      if Ascii.eqb c sep then "" :: split sep t
      else match split sep t with
           | h :: r => String c h :: r
           | [] => [String c ""]
           end
  end.

(** [l[-1]] on a list that is known not to be empty, with the value for
    the impossible empty case given. *)
Definition last_item (l : list string) : string := List.last l "".

(** [l[i]]: an index out of range raises [IndexError]. *)
Definition index (l : list string) (i : nat) : result string :=
  match l !! i with
  | Some x => Ok x
  | None => Raise (IndexError "list index out of range")
  end.

(** [s[n:]] *)
Fixpoint str_drop (n : nat) (s : string) : string :=
  match n, s with
  | O, _ => s
  | S n', String _ t => str_drop n' t
  | S _, EmptyString => ""
  end.

(** [s[:n]] *)
Definition str_take (n : nat) (s : string) : string := substring 0 n s.

(** [s[:-n]] for [n > 0] *)
Definition str_drop_last (n : nat) (s : string) : string :=
  str_take (String.length s - n) s.

(** [s.startswith(p)] *)
Definition startswith (s p : string) : bool := String.prefix p s.

(** [s.endswith(p)] *)
Definition endswith (s p : string) : bool :=
  (String.length p <=? String.length s) &&
  String.eqb (str_drop (String.length s - String.length p) s) p.

(** Truth value of a text: the empty text is false. *)
Definition truthy (s : string) : bool := negb (String.eqb s "").

(** [c.isspace()], which is what [\s] matches in a text pattern: in the
    first 256 code points these are U+0009..U+000D, U+001C..U+0020,
    U+0085 and U+00A0. *)
Definition isspace (c : ascii) : bool :=
  let n := nat_of_ascii c in
  ((9 <=? n) && (n <=? 13)) || ((28 <=? n) && (n <=? 32))
  || (n =? 133) || (n =? 160).

(** [s.lstrip()], [s.rstrip()] and [s.strip()] *)
Fixpoint lstrip (s : string) : string :=
  match s with
  | String c t => if isspace c then lstrip t else s
  | EmptyString => ""
  end.

Fixpoint rstrip (s : string) : string :=
  match s with
  | String c t =>
      match rstrip t with
      | EmptyString => if isspace c then "" else String c ""
      | r => String c r
      end
  | EmptyString => ""
  end.

Definition strip (s : string) : string := rstrip (lstrip s).

(** [s.rstrip(c)] for one character *)
Fixpoint rstrip_char (c : ascii) (s : string) : string :=
  match s with
  | String c' t =>
      match rstrip_char c t with
      | EmptyString => if Ascii.eqb c' c then "" else String c' ""
      | r => String c' r
      end
  | EmptyString => ""
  end.

Fixpoint all_chars (p : ascii -> bool) (s : string) : bool :=
  match s with
  | String c t => p c && all_chars p t
  | EmptyString => true
  end.

(** A value that may be [None]: [None] and the empty text are false. *)
Definition truthy_opt (o : option string) : bool :=
  match o with
  | Some s => truthy s
  | None => false
  end.

(** A value with the proof that it is the value of the expression, for
    the definitions by cases that need the equation. *)
Definition inspect {A} (a : A) : {b : A | a = b} := exist _ a eq_refl.

(** [os.path.join(a, b)] *)
Definition path_join (a b : string) : string :=
  if startswith b "/" then b
  else if String.eqb a "" || endswith a "/" then a +:+ b
  else a +:+ "/" +:+ b.

(** [os.path.basename(p)]: what follows the last slash. *)
Definition basename (p : string) : string := last_item (split "/" p).

(** [os.path.dirname(p)]: what precedes the last slash, without the
    slashes at its end unless it is made of slashes only. *)
Definition dirname (p : string) : string :=
  let head := str_take (String.length p - String.length (basename p)) p in
  if all_chars (Ascii.eqb "/") head then head else rstrip_char "/" head.

(** One component in the loop of [os.path.normpath]: empty components
    and ["."] are dropped, [".."] takes the component before it away
    unless there is none to take. *)
Definition normpath_step (initial_slashes : nat) (new_comps : list string)
    (comp : string) : list string :=
  if String.eqb comp "" || String.eqb comp "." then new_comps
  else if negb (String.eqb comp "..")
          || ((initial_slashes =? 0) && bool_decide (new_comps = []))
          || bool_decide (List.last new_comps "" = "..")
  then (new_comps ++ [comp])%list
  else List.removelast new_comps.

(** [os.path.normpath(path)]: two slashes at the start are kept, three
    or more are one. *)
Definition normpath (path : string) : string :=
  if String.eqb path "" then "."
  else
    let initial_slashes :=
      if startswith path "/" then
        if startswith path "//" && negb (startswith path "///") then 2 else 1
      else 0 in
    let comps := foldl (normpath_step initial_slashes) [] (split "/" path) in
    let path := String.concat "/" comps in
    let path :=
      match initial_slashes with
      | 0 => path
      | 1 => "/" +:+ path
      | _ => "//" +:+ path
      end in
    if String.eqb path "" then "." else path.

End Py.
Export Py.

(** ** The two substitutions of the output normalizer *)

Module Re.

(** The longest match of [\s*\n] at the start of [s]; the text after the
    match is returned.  The star is greedy and gives back characters
    until a line feed follows, so the match ends at the last line feed
    of the leading run of white space. *)
Fixpoint match_blank (s : string) : option string :=
  match s with
  | EmptyString => None
  | String c t =>
      if isspace c then
        match match_blank t with
        | Some r => Some r
        | None => if Ascii.eqb c LF then Some t else None
        end
      else None
  end.

(** [re.sub(r'\n\s*\n', '\n\n', s)]: matches are found from left to
    right and do not overlap; the scan resumes after each match. *)
Equations? sub_blank_lines (s : string) : string by wf (String.length s) lt :=
  sub_blank_lines EmptyString := "";
  sub_blank_lines (String c t) with Ascii.eqb c LF := {
    | false := String c (sub_blank_lines t);
    | true with inspect (match_blank t) := {
        | exist _ (Some r) _ := String LF (String LF (sub_blank_lines r));
        | exist _ None _ := String c (sub_blank_lines t) } }.
Proof.
  all: simpl; try lia.
  (* the text after a match is shorter than the text matched *)
  enough (forall s r, match_blank s = Some r ->
                      String.length r < String.length s) as H
    by (apply H in e; lia).
  clear. intros s. induction s as [|c t IH]; intros r; simpl; [discriminate|].
  destruct (isspace c); [|discriminate].
  destruct (match_blank t) as [r'|] eqn:E.
  - intros [= <-]. specialize (IH _ eq_refl). lia.
  - destruct (Ascii.eqb c LF); [|discriminate]. intros [= <-]. lia.
Qed.

(** The longest match of [s*\n] at the start of [s], the letter s being
    an ordinary character; the text after the match is returned. *)
Fixpoint match_s_newline (s : string) : option string :=
  match s with
  | EmptyString => None
  | String c t =>
      if Ascii.eqb c "s" then match_s_newline t
      else if Ascii.eqb c LF then Some t
      else None
  end.

(** [re.sub(r'^\ns*\n', '\n', s)]: without the MULTILINE flag [^] is the
    start of the text only, so at most one match is replaced. *)
Definition sub_leading (s : string) : string :=
  match s with
  | String c t =>
      if Ascii.eqb c LF then
        match match_s_newline t with
        | Some r => String LF r
        | None => s
        end
      else s
  | EmptyString => s
  end.

End Re.

(** ** The template engine

    jinja2 is an external dependency of the repository (spec sections 4.2,
    4.4 and 9): the definitions of this module are modelled from the spec
    and from what [envtpl.py] says of the engine.  The model covers the
    templates made of literal text and of references [{{ NAME }}] to a
    variable; every other construct is reported as [NotModelled]. *)

Module Jinja2.

(** Values of the template context: the texts of the variables, and the
    functions and classes that are the globals of a template. *)
Inductive value : Type :=
| VStr (s : string)
| VCallable (name : string).

Definition callable (v : value) : bool :=
  match v with
  | VCallable _ => true
  | VStr _ => false
  end.

#[export] Instance value_eq_dec : EqDecision value.
Proof. solve_decision. Defined.

Inductive undefined_class : Type := StrictUndefined | Undefined.

Inductive node : Type :=
| TemplateData (data : string)
| Name (name : string).

(** A loader gives the source of a template name, if it has one. *)
Definition loader : Type := string -> option string.

Definition DictLoader (mapping : gmap string string) : loader :=
  fun name => mapping !! name.

(** The first directory of the search path that has the file wins. *)
Fixpoint FileSystemLoader (fs : gmap string string) (searchpath : list string)
  : loader :=
  fun name =>
    match searchpath with
    | [] => None
    | d :: ds =>
        match fs !! path_join d name with
        | Some src => Some src
        | None => FileSystemLoader fs ds name
        end
    end.

Fixpoint ChoiceLoader (loaders : list loader) : loader :=
  fun name =>
    match loaders with
    | [] => None
    | l :: ls =>
        match l name with
        | Some src => Some src
        | None => ChoiceLoader ls name
        end
    end.

Definition get_source (l : loader) (name : string) : result string :=
  match l name with
  | Some src => Ok src
  | None => Raise (TemplateNotFound name)
  end.

Definition is_alpha (c : ascii) : bool :=
  let n := nat_of_ascii c in
  ((65 <=? n) && (n <=? 90)) || ((97 <=? n) && (n <=? 122)) || (n =? 95).

Definition is_alnum (c : ascii) : bool :=
  let n := nat_of_ascii c in
  is_alpha c || ((48 <=? n) && (n <=? 57)).

(** Names that the engine reads as constants, operators or special
    objects and not as variables. *)
Definition reserved : list string :=
  ["true"; "false"; "none"; "True"; "False"; "None"; "and"; "or"; "not";
   "in"; "is"; "if"; "else"; "self"].

Definition is_name (s : string) : bool :=
  match s with
  | String c t =>
      is_alpha c && all_chars is_alnum t && negb (bool_decide (s ∈ reserved))
  | EmptyString => false
  end.

(** The expression between the braces: only a name is covered. *)
Definition parse_expression (e : string) : result node :=
  let n := strip e in
  if is_name n then Ok (Name n)
  else Raise (NotModelled "expression other than a variable name").

Definition push_data (c : ascii) (ns : list node) : list node :=
  match ns with
  | TemplateData d :: r => TemplateData (String c d) :: r
  | _ => TemplateData (String c "") :: ns
  end.

(** The text of an expression up to the closing braces, and the source
    after them. *)
Fixpoint lex_variable (s : string) : result (string * string) :=
  match s with
  | EmptyString => Raise (TemplateSyntaxError "unexpected end of template")
  | String c t =>
      match t with
      | String c' t' =>
          if Ascii.eqb c "}" && Ascii.eqb c' "}" then Ok ("", t')
          else p ← lex_variable t; Ok (String c p.1, p.2)
      | EmptyString => Raise (TemplateSyntaxError "unexpected end of template")
      end
  end.

(** Modelled from the spec: the parser of the engine, for variable
    interpolation only.  An opening ["{{"] starts a reference; the block
    and comment delimiters are not covered. *)
Equations? parse_source (s : string) : result (list node)
  by wf (String.length s) lt :=
  parse_source EmptyString := Ok [];
  parse_source (String c EmptyString) := Ok [TemplateData (String c "")];
  parse_source (String c (String c' t)) with Ascii.eqb c "{" := {
    | false := ns ← parse_source (String c' t); Ok (push_data c ns);
    | true with Ascii.eqb c' "{" := {
        | true with inspect (lex_variable t) := {
            | exist _ (Ok (e, r)) _ :=
                n ← parse_expression e; ns ← parse_source r; Ok (n :: ns);
            | exist _ (Raise x) _ := Raise x };
        | false with Ascii.eqb c' "%" || Ascii.eqb c' "#" := {
            | true := Raise (NotModelled "block or comment");
            | false := ns ← parse_source (String c' t); Ok (push_data c ns) } } }.
Proof.
  all: simpl; try lia.
  (* the source after an expression is shorter than the source *)
  enough (forall s e r, lex_variable s = Ok (e, r) ->
                        String.length r < String.length s) as H
    by (apply H in e0; lia).
  clear. intros s. induction s as [|c t IH]; intros e r; simpl;
    [discriminate|].
  destruct t as [|c' t']; [discriminate|].
  destruct (Ascii.eqb c "}" && Ascii.eqb c' "}").
  - intros [= <- <-]. simpl. lia.
  - destruct (lex_variable (String c' t')) as [[e' r']|] eqn:E; simpl;
      [|discriminate].
    intros [= <- <-]. specialize (IH _ _ eq_refl). simpl in *. lia.
Qed.

(** Modelled from the spec: the engine drops one newline at the end of
    the source (render result invariant of spec section 3, and the comment
    in [_render]: jinja2 cuts the last newline). *)
Definition cut_last_newline (source : string) : string :=
  if endswith source nl
  then str_drop_last 1 source
  else source.

Definition CR : ascii := "013"%char.

Fixpoint has_char (c : ascii) (s : string) : bool :=
  match s with
  | String c' t => Ascii.eqb c c' || has_char c t
  | EmptyString => false
  end.

(** Carriage returns, which the engine rewrites, are not covered. *)
Definition parse (source : string) : result (list node) :=
  if has_char CR source then Raise (NotModelled "carriage return")
  else parse_source (cut_last_newline source).

Record Environment : Type := {
  env_loader : loader;
  env_undefined : undefined_class;
  env_extensions : list string
}.

(** The globals that every environment starts with. *)
Definition DEFAULT_NAMESPACE : gmap string value :=
  list_to_map
    [("range", VCallable "range"); ("dict", VCallable "dict");
     ("lipsum", VCallable "generate_lorem_ipsum");
     ("cycler", VCallable "Cycler"); ("joiner", VCallable "Joiner");
     ("namespace", VCallable "Namespace")].

Record Template : Type := {
  tpl_body : list node;
  tpl_undefined : undefined_class;
  tpl_globals : gmap string value
}.

(** Modelled from the spec: [env.get_template(name)], which fails when
    no loader has the template.  Loading extensions is not covered. *)
Definition get_template (env : Environment) (name : string) : result Template :=
  match env_extensions env with
  | _ :: _ => Raise (NotModelled "extension")
  | [] =>
      source ← get_source (env_loader env) name;
      body ← parse source;
      Ok {| tpl_body := body;
            tpl_undefined := env_undefined env;
            tpl_globals := DEFAULT_NAMESPACE |}
  end.

(** [template.globals[key] = v] *)
Definition set_global (key : string) (v : value) (t : Template) : Template :=
  {| tpl_body := tpl_body t;
     tpl_undefined := tpl_undefined t;
     tpl_globals := <[key := v]> (tpl_globals t) |}.

(** The context of a rendering: the variables, then the globals. *)
Definition new_context (t : Template) (variables : gmap string string)
  : gmap string value :=
  (VStr <$> variables) ∪ tpl_globals t.

Definition undefined_message (name : string) : string :=
  "'" +:+ name +:+ "' is undefined".

(** [str(f)] for a global of the template (Python 3).  A class gives its
    qualified name; the text of a function holds its address in memory
    and is not covered. *)
Definition str_callable (f : string) : result string :=
  if String.eqb f "range" then Ok "<class 'range'>"
  else if String.eqb f "dict" then Ok "<class 'dict'>"
  else if String.eqb f "Cycler" then Ok "<class 'jinja2.utils.Cycler'>"
  else if String.eqb f "Joiner" then Ok "<class 'jinja2.utils.Joiner'>"
  else if String.eqb f "Namespace" then Ok "<class 'jinja2.utils.Namespace'>"
  else Raise (NotModelled "text of a function").

(** Modelled from the spec: the text that a reference gives, with the
    undefined-variable policy of spec sections 3 and 4.4.  Under the
    strict policy a reference to a name that is not defined aborts the
    rendering with the message of the engine; under the lenient policy it
    gives the empty text.  A name that is a global of the template is
    defined, under either policy: the reference gives the text of the
    global. *)
Definition output (undefined : undefined_class) (context : gmap string value)
    (name : string) : result string :=
  match context !! name with
  | Some (VStr s) => Ok s
  | Some (VCallable f) => str_callable f
  | None =>
      match undefined with
      | StrictUndefined => Raise (UndefinedError (undefined_message name))
      | Undefined => Ok ""
      end
  end.

Fixpoint render_nodes (undefined : undefined_class)
    (context : gmap string value) (ns : list node) : result string :=
  match ns with
  | [] => Ok ""
  | TemplateData d :: r =>
      rest ← render_nodes undefined context r; Ok (d +:+ rest)
  | Name n :: r =>
      v ← output undefined context n;
      rest ← render_nodes undefined context r; Ok (v +:+ rest)
  end.

(** Modelled from the spec: [template.render], with the variables as
    keyword arguments. *)
Definition render (t : Template) (variables : gmap string string)
  : result string :=
  render_nodes (tpl_undefined t) (new_context t variables) (tpl_body t).

End Jinja2.

(** ** The shell

    The command interpreter that [subprocess.check_output] starts with
    [shell=True] is outside the repository.  This model covers the command
    lines that are lists [c ; c ; ...] of the simple commands [exit],
    [exit N], [true], [false] and [echo WORD ...]; it gives the exit status
    and the text written.  [exit] ends the interpreter at once, so the
    commands after it do not run. *)

Module Sh.













End Sh.

(** ** envtpl.py *)

Module Envtpl.
Import Jinja2.

Definition EXTENSION : string := ".tpl".

(** What the program does to the world outside, in order. *)
Inductive event : Type :=
| EvOpen (path : string)                  (* a file opened for writing *)
| EvWrite (path : string) (data : string) (* text written to an open file *)
| EvCopy (source target : string)         (* shutil.copy *)
| EvUnlink (path : string)                (* os.unlink *)
| EvMkdir (path : string)                 (* os.makedirs *)
| EvStdout (data : string)
| EvStderr (data : string).

(** The process environment, the file system and the standard input.
    [fs] gives the content of every file and [dirs] the directories;
    [readonly] holds the paths that cannot be created or opened for
    writing, [binary] the files that the content check finds binary, and
    [tree] what [os.walk] yields for a directory.  [events] records what
    was done, the oldest first. *)
Record world : Type := {
  environ : gmap string string;
  cwd : string;
  fs : gmap string string;
  dirs : gset string;
  readonly : gset string;
  binary : gset string;
  tree : string -> list (string * (list string * list string));
  stdin : string;
  events : list event
}.

Definition with_fs (w : world) (f : gmap string string) (e : list event) : world :=
  {| environ := environ w; cwd := cwd w; fs := f; dirs := dirs w;
     readonly := readonly w; binary := binary w; tree := tree w;
     stdin := stdin w; events := events w ++ e |}.

Definition with_dir (w : world) (d : string) : world :=
  {| environ := environ w; cwd := cwd w; fs := fs w; dirs := {[d]} ∪ dirs w;
     readonly := readonly w; binary := binary w; tree := tree w;
     stdin := stdin w; events := events w ++ [EvMkdir d] |}.

(** A computation that may change the world and may raise. *)
Definition io (A : Type) : Type := world -> world * result A.

#[export] Instance io_ret : MRet io := fun A a w => (w, Ok a).
#[export] Instance io_bind : MBind io := fun A B k m w =>
  match m w with
  | (w', Ok a) => k a w'
  | (w', Raise e) => (w', Raise e)
  end.

Definition raise {A} (e : exn) : io A := fun w => (w, Raise e).
Definition lift {A} (r : result A) : io A := fun w => (w, r).
Definition get_world : io world := fun w => (w, Ok w).

(** The errors of the system calls, with the text that [str(e)] gives
    for them.  The path is written between single quotes, as [repr]
    writes a path of plain characters. *)
Definition PermissionError (path : string) : exn :=
  IOError ("[Errno 13] Permission denied: '" +:+ path +:+ "'").

Definition FileNotFoundError (path : string) : exn :=
  IOError ("[Errno 2] No such file or directory: '" +:+ path +:+ "'").

(** [open(path, 'w')] or [open(path, 'wb')]: the file is created or cut
    to length zero.  The paths of [readonly] are those that the process
    is not allowed to write; the other ways in which an open can fail (a
    directory that is missing, a path that is a directory) are outside
    the model. *)
Definition open_w (path : string) : io unit := fun w =>
  if bool_decide (path ∈ readonly w)
  then (w, Raise (PermissionError path))
  else (with_fs w (<[path := ""]> (fs w)) [EvOpen path], Ok ()).

(** [f.write(data)] on a file opened for writing at [path]. *)
Definition file_write (path data : string) : io unit := fun w =>
  (with_fs w (<[path := default "" (fs w !! path) +:+ data]> (fs w))
     [EvWrite path data], Ok ()).

(** [open(path, 'r').read()] *)
Definition file_read (path : string) : io string := fun w =>
  match fs w !! path with
  | Some c => (w, Ok c)
  | None => (w, Raise (FileNotFoundError path))
  end.

(** [os.unlink(path)] *)
Definition unlink (path : string) : io unit := fun w =>
  match fs w !! path with
  | Some _ => (with_fs w (delete path (fs w)) [EvUnlink path], Ok ())
  | None => (w, Raise (FileNotFoundError path))
  end.

(** On Python 3 the text is returned as it is. *)
Definition _unicodify (s : string) : string := s.

Definition stdin_read : io string := fun w => (w, Ok (stdin w)).

Definition stdout_write (data : string) : io unit := fun w =>
  (with_fs w (fs w) [EvStdout data], Ok ()).

Definition stderr_write (data : string) : io unit := fun w =>
  (with_fs w (fs w) [EvStderr data], Ok ()).

(** [sorted(items)] on the items of a dictionary, whose keys differ: by
    key.  Texts are ordered by code points, the first difference decides
    and a proper prefix is smaller, which is [String.le]. *)
Definition sorted (items : list (string * value)) : list (string * value) :=
  merge_sort (fun a b => String.le a.1 b.1) items.

(** The generator [get_environment], as the list of what it yields. *)
Definition get_environment (context : gmap string value) (prefix : string)
  : list (string * value) :=
  (fun kv => (str_drop (String.length prefix) kv.1, kv.2)) <$>
  List.filter (fun kv => negb (callable kv.2) && startswith kv.1 prefix)
    (sorted (map_to_list context)).





Definition getenv (environ : gmap string string) (value : string)
    (default : option string) : result string :=
  let result :=
    match environ !! value with
    | Some v => Some v
    | None => default
    end in
  match result with
  | None => Raise (Exception ("can't find " +:+ value +:+ " environnement variable"))
  | Some r => Ok r
  end.

(** The repair of the last newline in [_render]: jinja2 cuts the last
    newline. *)
Definition repair_newline (source output : string) : string :=
  if String.eqb (last_item (split LF source)) "" &&
     negb (String.eqb (last_item (split LF output)) "")
  then output +:+ nl
  else output.

(** The two substitutions of [_render] that reduce multi empty or blank
    lines to a single empty line. *)
Definition reduce_blank_lines (output : string) : string :=
  let output := Re.sub_blank_lines output in
  let output := Re.sub_leading output in
  output.

(** The filters that [_render] registers ([from_json], [shell], [getenv],
    [uuid], [fnmatch]) are reached by a filter expression only, which the
    model of the engine does not cover; [shell] and [getenv] are given
    above as functions of their own. *)
Definition _render (template_name : string) (loader : loader)
    (variables : gmap string string) (undefined : undefined_class)
    (keep_multi_blank_lines : bool) (jinja2_extensions : list string)
  : result string :=
  let env := {| env_loader := loader; env_undefined := undefined;
                env_extensions := jinja2_extensions |} in
  template ← get_template env template_name;
  let template :=
    set_global "environment" (VCallable "get_environment") template in
  output ←
    match render template variables with
    | Raise (UndefinedError e) => Raise (Fatal e)
    | r => r
    end;
  source ← get_source loader template_name;
  let output := repair_newline source output in
  let output :=
    if negb keep_multi_blank_lines then reduce_blank_lines output
    else output in
  Ok output.

Definition _render_string (str : string) (variables : gmap string string)
    (undefined : undefined_class) (extra_search_paths : list string)
    (keep_multi_blank_lines : bool) (jinja2_extensions : list string)
  : world -> result string := fun w =>
  let template_name := "template_name" in
  let loader1 := DictLoader {[ template_name := _unicodify str ]} in
  let loader2 := FileSystemLoader (fs w) (cwd w :: extra_search_paths) in
  let loader := ChoiceLoader [loader1; loader2] in
  _render template_name loader variables undefined keep_multi_blank_lines
    jinja2_extensions.

(** The template is looked up under its own directory first.  The name
    relative to that directory is the last component of the path. *)
Definition _render_file (filename : string) (variables : gmap string string)
    (undefined : undefined_class) (extra_search_paths : list string)
    (keep_multi_blank_lines : bool) (jinja2_extensions : list string)
  : world -> result string := fun w =>
  let dirname := dirname filename in
  let loader := FileSystemLoader (fs w) (dirname :: extra_search_paths) in
  let relpath := basename filename in
  _render relpath loader variables undefined keep_multi_blank_lines
    jinja2_extensions.

(** Reading the world does not change it. *)
Definition ask {A} (f : world -> result A) : io A := fun w => (w, f w).

(** The output filename that [process_file] works with: the one given,
    or else the input filename without its extension. *)
Definition output_filename_of (input_filename output_filename : option string)
  : result (option string) :=
  if truthy_opt input_filename && negb (truthy_opt output_filename) then
    let input := default "" input_filename in
    if negb (endswith input EXTENSION) then
      Raise (Fatal ("If no output filename is given, input filename must end in "
                    +:+ EXTENSION))
    else
      let output_filename := str_drop_last (String.length EXTENSION) input in
      if negb (truthy output_filename) then
        Raise (Fatal "Output filename is empty")
      else Ok (Some output_filename)
  else Ok output_filename.

(** The rendering step of [process_file]: of the input file, or of the
    standard input. *)
Definition render_input (input_filename : option string)
    (variables : gmap string string) (undefined : undefined_class)
    (extra_search_paths : list string) (keep_multi_blank_lines : bool)
    (jinja2_extensions : list string) : io string :=
  if truthy_opt input_filename then
    ask (_render_file (default "" input_filename) variables undefined
           extra_search_paths keep_multi_blank_lines jinja2_extensions)
  else
    text ← stdin_read;
    ask (_render_string text variables undefined extra_search_paths
           keep_multi_blank_lines jinja2_extensions).

Definition process_file (input_filename output_filename : option string)
    (variables : gmap string string)
    (die_on_missing_variable remove_template : bool)
    (extra_search_paths : list string) (keep_multi_blank_lines : bool)
    (jinja2_extensions : list string) : io unit :=
  if negb (truthy_opt input_filename) && negb remove_template then
    raise (Fatal "--keep-template only makes sense if you specify an input file")
  else
  let undefined :=
    if die_on_missing_variable then StrictUndefined else Undefined in
  output_filename ← lift (output_filename_of input_filename output_filename);
  output ← render_input input_filename variables undefined extra_search_paths
             keep_multi_blank_lines jinja2_extensions;
  _ ←
    (if truthy_opt output_filename &&
        negb (bool_decide (output_filename = Some "-")) then
       let path := default "" output_filename in
       _ ← open_w path; file_write path output
     else stdout_write output);
  if truthy_opt input_filename && remove_template then
    unlink (default "" input_filename)
  else mret ().

(** The loop of assignments [variables[key] = value] makes the extra
    variables win over the environment. *)
Definition render_string (str : string) (extra_variables : gmap string string)
    (die_on_missing_variable : bool) (extra_search_paths : list string)
    (keep_multi_blank_lines : bool) (jinja2_extensions : list string)
  : world -> result string := fun w =>
  let undefined :=
    if die_on_missing_variable then StrictUndefined else Undefined in
  let variables := _unicodify <$> environ w in
  let variables := extra_variables ∪ variables in
  _render_string str variables undefined extra_search_paths
    keep_multi_blank_lines jinja2_extensions w.

Record args : Type := {
  input_file : option string;
  output_file : option string;
  search_paths : option string;
  allow_missing : bool;
  keep_template : bool;
  reduce_multi_blank_lines : bool;
  jinja2_extension : option (list string)
}.

(** [str(e)]; for [CalledProcessError], with a return code that is not
    negative. *)
Definition message (e : exn) : string :=
  match e with
  | Fatal m | UndefinedError m | NotModelled m | Exception m
  | IndexError m | TemplateSyntaxError m | IOError m => m
  | TemplateNotFound n => n
  | CalledProcessError code cmd =>
      "Command '" +:+ cmd +:+ "' returned non-zero exit status " +:+
      pretty code +:+ "."
  | SystemExit _ => ""
  end.

(** The classes of [except (Fatal, IOError)]. *)
Definition is_Fatal_or_IOError (e : exn) : bool :=
  match e with
  | Fatal _ | IOError _ | TemplateNotFound _ => true
  | _ => false
  end.

(** [sys.exit(code)] *)
Definition sys_exit {A} (code : Z) : io A := raise (SystemExit code).

Definition main (a : args) : io unit := fun w =>
  let jinja2_extensions := default [] (jinja2_extension a) in
  let variables := _unicodify <$> environ w in
  let extra_search_paths :=
    match search_paths a with
    | None => []
    | Some p => strip <$> split "," p
    end in
  match process_file (input_file a) (output_file a) variables
          (negb (allow_missing a)) (negb (keep_template a))
          extra_search_paths (negb (reduce_multi_blank_lines a))
          jinja2_extensions w with
  | (w', Raise e) =>
      if is_Fatal_or_IOError e then
        (_ ← stderr_write ("Error: " +:+ message e +:+ nl); sys_exit 1%Z) w'
      else (w', Raise e)
  | (w', Ok _) => sys_exit 0%Z w'
  end.

(** The exit status of the process: that of [sys.exit], and 1 when an
    exception is not caught. *)
Definition exit_status {A} (r : result A) : Z :=
  match r with
  | Ok _ => 0%Z
  | Raise (SystemExit code) => code
  | Raise _ => 1%Z
  end.

End Envtpl.

(** ** renvtpl.py *)

Module Renvtpl.
Import Jinja2 Envtpl.

(** [os.makedirs(path)] for a path whose parent directory exists, which
    is the case of the directories that [main] makes below the target
    (the walk goes from the top down): the call then makes the one
    directory, or fails and makes nothing.  The directories that
    [os.makedirs] makes above a path whose parent is missing are not
    recorded. *)
Definition mkdir_p (path : string) : io bool := fun w =>
  if bool_decide (path ∈ dirs w) then (w, Ok true)
  else if bool_decide (is_Some (fs w !! path)) then (w, Ok false)
  else if bool_decide (path ∈ readonly w) then (w, Ok false)
  else (with_dir w path, Ok true).

Definition check_directory_or_create_it_or_die (directory : string) : io unit :=
  res ← mkdir_p directory;
  if negb res then
    _ ← stderr_write ("ERROR: can't create " +:+ directory +:+
                      " as a directory" +:+ nl);
    sys_exit 1%Z
  else mret ().

Record args : Type := {
  SOURCE_DIRECTORY : string;
  TARGET_DIRECTORY : string;
  die_on_missing : bool;
  extra_var : list string;
  extra_search_path : list string
}.

(** [os.path.abspath(p)] without its last step, the normalization: the
    result is that of the program when [normpath] leaves it as it is. *)
Definition abspath (p : string) : io string := fun w =>
  (w, Ok (if startswith p "/" then p else path_join (cwd w) p)).

(** [for x in l: body] *)
Fixpoint for_each {A} (l : list A) (body : A -> io unit) : io unit :=
  match l with
  | [] => mret ()
  | x :: r => _ ← body x; for_each r body
  end.

(** [{x.split(',')[0]: x.split(',')[1] for x in extra_var}], built from
    left to right. *)
Fixpoint extra_variables (extra_var : list string) (acc : gmap string string)
  : result (gmap string string) :=
  match extra_var with
  | [] => Ok acc
  | x :: r =>
      key ← index (split "," x) 0;
      val ← index (split "," x) 1;
      extra_variables r (<[key := val]> acc)
  end.

(** [shutil.copy(source, target)] for a target that is a file path. *)
Definition copy (source target : string) : io unit := fun w =>
  match fs w !! source with
  | None => (w, Raise (FileNotFoundError source))
  | Some c =>
      if bool_decide (target ∈ readonly w)
      then (w, Raise (PermissionError target))
      else (with_fs w (<[target := c]> (fs w)) [EvCopy source target], Ok ())
  end.

Definition is_binary (path : string) : io bool := fun w =>
  (w, Ok (bool_decide (path ∈ binary w))).

(** The body of the loop over the files of a directory. *)
Definition process_one (a : args) (root target_root f : string) : io unit :=
  let source := path_join root f in
  let target := path_join target_root f in
  b ← is_binary source;
  if (b : bool) then copy source target
  else
    c ← file_read source;
    _ ← open_w target;
    extra ← lift (extra_variables (extra_var a) ∅);
    newc ← ask (render_string c extra (die_on_missing a)
                  (extra_search_path a) true []);
    file_write target newc.

(** The body of the loop over what [os.walk] yields. *)
Definition process_directory (a : args) (source_directory target_directory : string)
    (entry : string * (list string * list string)) : io unit :=
  let '(root, (dirs, files)) := entry in
  let target_root :=
    if String.eqb root source_directory then target_directory
    else path_join target_directory
           (str_drop (String.length source_directory + 1) root) in
  _ ← for_each dirs (fun d =>
         let tmp := path_join target_root d in
         res ← mkdir_p tmp;
         if negb res then
           raise (Exception ("can't create " +:+ tmp +:+ " directory"))
         else mret ());
  for_each files (process_one a root target_root).

Definition main (a : args) : io unit :=
  source_directory ← abspath (SOURCE_DIRECTORY a);
  target_directory ← abspath (TARGET_DIRECTORY a);
  w ← get_world;
  if negb (bool_decide (source_directory ∈ dirs w)) then
    _ ← stderr_write ("ERROR: " +:+ source_directory +:+
                      " is not a directory" +:+ nl);
    sys_exit 1%Z
  else
    _ ← check_directory_or_create_it_or_die target_directory;
    for_each (tree w source_directory)
      (process_directory a source_directory target_directory).

End Renvtpl.

(** ** Vocabulary of the properties *)

Import Jinja2 Envtpl Renvtpl.

(* From here on [++] joins lists and [+:+] joins texts. *)
Local Open Scope list_scope.

(** The globals of the template that [_render] renders. *)
Definition template_globals : gmap string value :=
  <["environment" := VCallable "get_environment"]> DEFAULT_NAMESPACE.

(** The context in which [_render] renders: the variables, then the
    globals with the helper [environment]. *)
Definition template_context (variables : gmap string string)
  : gmap string value :=
  (VStr <$> variables) ∪
  <["environment" := VCallable "get_environment"]> DEFAULT_NAMESPACE.

(** The part of [_render] that follows the engine. *)
Definition normalize (source output : string) (keep_multi_blank_lines : bool)
  : string :=
  let output := repair_newline source output in
  if negb keep_multi_blank_lines then reduce_blank_lines output else output.

(** What [process_file] does after the rendering: the output is written,
    then the template is removed. *)
Definition write_output (input_filename output_filename : option string)
    (remove_template : bool) (output : string) : io unit :=
  _ ←
    (if truthy_opt output_filename &&
        negb (bool_decide (output_filename = Some "-")) then
       let path := default "" output_filename in
       _ ← open_w path; file_write path output
     else stdout_write output);
  if truthy_opt input_filename && remove_template then
    unlink (default "" input_filename)
  else mret ().

(** The rendering step of [process_one]: the extra variables are read,
    then the text is rendered. *)
Definition render_step (a : args) (c : string) (w : world) : result string :=
  extra ← extra_variables (extra_var a) ∅;
  render_string c extra (die_on_missing a) (extra_search_path a) true [] w.

(** The text of a body in which every reference to a variable that is not
    set gives the empty text. *)
Fixpoint lenient_text (variables : gmap string string) (body : list node)
  : string :=
  match body with
  | [] => ""
  | TemplateData d :: r => d +:+ lenient_text variables r
  | Name n :: r => default "" (variables !! n) +:+ lenient_text variables r
  end.

(** The body refers to no helper. *)
Definition no_helper (body : list node) : Prop :=
  forall n, Name n ∈ body -> template_globals !! n = None.



(** An example world: an environment with one variable, one template
    file, and nothing else. *)
Definition world0 : world :=
  {| environ := {[ "PORT" := "9000" ]};
     cwd := "/";
     fs := {[ "config.yml.tpl" := "port: {{ PORT }}" +:+ nl ]};
     dirs := ∅; readonly := ∅; binary := ∅;
     tree := fun _ => [];
     stdin := "";
     events := [] |}.

(** A source directory with one template that refers to a variable that
    is not set, and an empty target directory. *)
Definition world1 : world :=
  {| environ := {[ "PORT" := "9000" ]};
     cwd := "/";
     fs := {[ "/src/a.conf" := "host: {{ HOST }}" +:+ nl ]};
     dirs := {[ "/src"; "/dst" ]}; readonly := ∅; binary := ∅;
     tree := fun d =>
       if String.eqb d "/src" then [("/src", ([], ["a.conf"; "z.conf"]))]
       else [];
     stdin := "";
     events := [] |}.

Definition args1 : args :=
  {| SOURCE_DIRECTORY := "/src"; TARGET_DIRECTORY := "/dst";
     die_on_missing := true; extra_var := []; extra_search_path := [] |}.

(** The template and the environment of the example, on the standard
    input. *)
Definition world2 : world :=
  {| environ := {[ "PORT" := "9000" ]};
     cwd := "/";
     fs := ∅; dirs := ∅; readonly := ∅; binary := ∅;
     tree := fun _ => [];
     stdin := "host: {{ HOST }}:{{ PORT }}" +:+ nl;
     events := [] |}.

Definition args2 : args :=
  {| SOURCE_DIRECTORY := "/src"; TARGET_DIRECTORY := "/dst";
     die_on_missing := false; extra_var := ["HOST,example.org"; "DEBUG"];
     extra_search_path := [] |}.


(** The call of [process_file] in [main]. *)
Definition main_process_file (a : Envtpl.args) : io unit := fun w =>
  process_file (input_file a) (output_file a) (_unicodify <$> environ w)
    (negb (allow_missing a)) (negb (keep_template a))
    (match search_paths a with
     | None => []
     | Some p => strip <$> split "," p
     end)
    (negb (reduce_multi_blank_lines a))
    (default [] (jinja2_extension a)) w.

(** A command line with an input file and the defaults for the rest. *)
Definition file_args (input : string) (output : option string)
    (keep_template : bool) : Envtpl.args :=
  {| input_file := Some input; output_file := output; search_paths := None;
     allow_missing := false; keep_template := keep_template;
     reduce_multi_blank_lines := false; jinja2_extension := None |}.

(** A world with a template named after the standard output, and one
    output path that cannot be written. *)
Definition world3 : world :=
  {| environ := {[ "PORT" := "9000" ]};
     cwd := "/";
     fs := {[ "-.tpl" := "port: {{ PORT }}" +:+ nl ]};
     dirs := ∅; readonly := {[ "locked" ]}; binary := ∅;
     tree := fun _ => [];
     stdin := "";
     events := [] |}.

(** The characters of a text that satisfy a test, in order. *)
Fixpoint str_filter (p : ascii -> bool) (s : string) : string :=
  match s with
  | String c t => if p c then String c (str_filter p t) else str_filter p t
  | EmptyString => ""
  end.

(** A character that is not white space. *)
Definition is_content (c : ascii) : bool := negb (isspace c).




(** The path that [abspath] gives: the path itself when it starts with a
    slash, or else the path below the current directory.  It is what
    [os.path.abspath] returns when [normpath] leaves it as it is. *)
Definition absolute (w : world) (p : string) : string :=
  if startswith p "/" then p else path_join (cwd w) p.

(** A source directory with a binary file and a text file, a target
    directory in which a file has the name of a source sub-directory, and
    extra variables of which one has no comma. *)
Definition world4 : world :=
  {| environ := {[ "PORT" := "9000" ]};
     cwd := "/";
     fs := {[ "/src/logo.png" := "{{ not a template }}";
              "/src/a.conf" := "port: {{ PORT }}" +:+ nl;
              "/dst/a.conf" := "old content";
              "/dst/sub" := "a file" ]};
     dirs := {[ "/src"; "/dst" ]}; readonly := {[ "/locked" ]};
     binary := {[ "/src/logo.png" ]};
     tree := fun d =>
       if String.eqb d "/src"
       then [("/src", (["sub"], ["logo.png"; "a.conf"]))]
       else [];
     stdin := "";
     events := [] |}.

Definition args4 : Renvtpl.args :=
  {| SOURCE_DIRECTORY := "/src"; TARGET_DIRECTORY := "/dst";
     die_on_missing := true; extra_var := ["DEBUG"];
     extra_search_path := [] |}.

(** * Properties *)

(** ** Texts *)

Section Texts.

Implicit Types (s t p q : string) (c sep : ascii).

Lemma append_nil_r s : s +:+ "" = s.
Proof. induction s as [|c s IH]; simpl; [done|by rewrite IH]. Qed.

Lemma append_assoc s t p : (s +:+ t) +:+ p = s +:+ (t +:+ p).
Proof. induction s as [|c s IH]; simpl; [done|by rewrite IH]. Qed.

Lemma length_append s t :
  String.length (s +:+ t) = String.length s + String.length t.
Proof. induction s; simpl; lia. Qed.

Lemma str_drop_append s t : str_drop (String.length s) (s +:+ t) = t.
Proof. induction s; simpl; [by destruct t|done]. Qed.

Lemma str_take_append s t : str_take (String.length s) (s +:+ t) = s.
Proof.
  unfold str_take. induction s as [|c s IH]; simpl; [by destruct t|].
  by rewrite IH.
Qed.

Lemma str_take_drop n s : str_take n s +:+ str_drop n s = s.
Proof.
  unfold str_take. revert s; induction n as [|n IH]; intros [|c s]; simpl;
    try done.
  by rewrite IH.
Qed.

Lemma startswith_spec s p : startswith s p = true <-> exists t, s = p +:+ t.
Proof.
  unfold startswith. revert s; induction p as [|c p IH]; intros s; simpl.
  - split; [intros _; by exists s|]. by destruct s.
  - destruct s as [|c' s]; simpl; [split; [done|by intros [t ?]]|].
    destruct (ascii_dec c c') as [->|Hne].
    + rewrite IH. split; intros [t Ht]; exists t; congruence.
    + split; [done|]. intros [t Ht]. congruence.
Qed.

Lemma endswith_spec s p : endswith s p = true <-> exists t, s = t +:+ p.
Proof.
  unfold endswith. rewrite andb_true_iff, Nat.leb_le, String.eqb_eq. split.
  - intros [_ H]. exists (str_take (String.length s - String.length p) s).
    pose proof (str_take_drop (String.length s - String.length p) s) as E.
    by rewrite H in E.
  - intros [t ->]. rewrite length_append. split; [lia|].
    replace (_ + _ - _) with (String.length t) by lia.
    apply str_drop_append.
Qed.

Lemma str_drop_last_append s p :
  str_drop_last (String.length p) (s +:+ p) = s.
Proof.
  unfold str_drop_last. rewrite length_append.
  replace (_ + _ - _) with (String.length s) by lia. apply str_take_append.
Qed.

Lemma split_not_nil sep s : split sep s <> [].
Proof.
  destruct s as [|c s]; simpl; [done|].
  destruct (Ascii.eqb c sep); [done|]. by destruct (split sep s).
Qed.

(** A text without the separator is the only item. *)
Lemma split_no_sep sep s : has_char sep s = false -> split sep s = [s].
Proof.
  induction s as [|c s IH]; simpl; [done|].
  rewrite (Ascii.eqb_sym sep c). destruct (Ascii.eqb c sep); simpl; [done|].
  intros H. by rewrite IH.
Qed.

(** The first item is the text before the first separator. *)
Lemma split_first sep s t :
  has_char sep s = false ->
  split sep (s +:+ String sep t) = s :: split sep t.
Proof.
  induction s as [|c s IH]; simpl.
  - by rewrite Ascii.eqb_refl.
  - rewrite (Ascii.eqb_sym sep c). destruct (Ascii.eqb c sep); simpl; [done|].
    intros H. by rewrite IH.
Qed.

Lemma split_singleton sep s h :
  split sep s = [h] -> s = h /\ has_char sep s = false.
Proof.
  revert h; induction s as [|c s IH]; intros h; simpl.
  - by intros [= <-].
  - rewrite (Ascii.eqb_sym sep c). destruct (Ascii.eqb c sep).
    + intros [= _ H]. by destruct (split_not_nil sep s).
    + destruct (split sep s) as [|h' r] eqn:E;
        [by destruct (split_not_nil sep s)|].
      intros [= <- ->]. destruct (IH _ eq_refl) as [-> ?]. by simpl.
Qed.

(** The last item of the lines is empty exactly for the empty text and
    for a text that ends with a newline. *)
Lemma last_line_empty s :
  last_item (split LF s) = "" <-> s = "" \/ endswith s nl = true.
Proof.
  rewrite endswith_spec. unfold last_item, nl.
  induction s as [|c s IH]; simpl; [by split; auto|].
  destruct (Ascii.eqb_spec c LF) as [->|Hne].
  - assert (List.last ("" :: split LF s) "" = List.last (split LF s) "") as ->.
    { destruct (split LF s) eqn:E; [by destruct (split_not_nil LF s)|done]. }
    rewrite IH. split.
    + intros [->|[t ->]]; right; [by exists ""|by exists (String LF t)].
    + intros [?|[t Ht]]; [done|]. destruct t as [|c' t]; simpl in Ht.
      * left. congruence.
      * right. exists t. congruence.
  - destruct (split LF s) as [|h r] eqn:E; [by destruct (split_not_nil LF s)|].
    destruct r as [|h' r].
    + simpl. apply split_singleton in E as [-> Hno]. split; [done|].
      intros [?|[t Ht]]; [done|]. exfalso.
      destruct t as [|c' t]; simpl in Ht; [congruence|].
      injection Ht as -> ->. clear -Hno. induction t; simpl in *.
      * done.
      * apply orb_false_iff in Hno as [_ ?]. auto.
    + change (List.last (String c h :: h' :: r) "") with
        (List.last (h :: h' :: r) "").
      rewrite IH. split.
      * intros [->|[t ->]]; [done|]. right. by exists (String c t).
      * intros [?|[t Ht]]; [done|]. destruct t as [|c' t]; simpl in Ht;
          [congruence|]. right. exists t. congruence.
Qed.

End Texts.

(** ** The rendering pipeline *)

Lemma _render_unfold name (l : loader) variables undefined keep source body :
  l name = Some source ->
  parse source = Ok body ->
  _render name l variables undefined keep [] =
    match render_nodes undefined (template_context variables) body with
    | Ok raw => Ok (normalize source raw keep)
    | Raise (UndefinedError e) => Raise (Fatal e)
    | Raise e => Raise e
    end.
Proof.
  intros Hl Hp. unfold _render, get_template, get_source; simpl.
  rewrite Hl; simpl. rewrite Hp; simpl.
  unfold render, new_context; simpl. fold (template_context variables).
  destruct (render_nodes undefined (template_context variables) body)
    as [raw|e]; simpl; [done|by destruct e].
Qed.

Lemma _render_string_unfold str variables undefined paths keep w body :
  parse str = Ok body ->
  _render_string str variables undefined paths keep [] w =
    match render_nodes undefined (template_context variables) body with
    | Ok raw => Ok (normalize str raw keep)
    | Raise (UndefinedError e) => Raise (Fatal e)
    | Raise e => Raise e
    end.
Proof.
  intros Hp. unfold _render_string. apply _render_unfold; [|done].
  simpl. unfold DictLoader. by rewrite lookup_singleton_eq.
Qed.

(** ** C2: the repair of the last newline *)

(** C2, counterexample.  The source made of one newline ends with a
    newline and its rendered output, the empty text, does not: the claim
    asks for one newline to be appended, and [_render] appends none. *)
Lemma C2_no_newline_for_empty_output :
  endswith nl nl = true /\ endswith "" nl = false /\
  repair_newline nl "" = "" /\
  repair_newline nl "" <> "" +:+ nl /\
  _render_string nl ∅ StrictUndefined [] true [] world0 = Ok "".
Proof. by vm_compute. Qed.

(** The same the other way round: the empty source does not end with a
    newline, and a newline is appended to an output that has none. *)
Example repair_newline_empty_source : repair_newline "" "x" = "x" +:+ nl.
Proof. reflexivity. Qed.

(** C2, amended.  [_render] appends one newline to the rendered output
    exactly when the last line of the source is empty (the source is empty
    or ends with a newline) and the last line of the output is not (the
    output is not empty and does not end with a newline); otherwise the
    output is left as it is.  The reduction of blank lines, when asked
    for, comes after. *)
Theorem C2_repair_newline name (l : loader) variables undefined
    (keep : bool) source body raw :
  l name = Some source ->
  parse source = Ok body ->
  render_nodes undefined (template_context variables) body = Ok raw ->
  let repaired :=
    if (String.eqb source "" || endswith source nl) &&
       negb (String.eqb raw "" || endswith raw nl)
    then raw +:+ nl else raw in
  _render name l variables undefined keep [] =
    Ok (if keep then repaired else reduce_blank_lines repaired).
Proof.
  intros Hl Hp Hr. rewrite (_render_unfold _ _ _ _ _ _ _ Hl Hp), Hr.
  simpl. f_equal. unfold normalize, repair_newline.
  assert (forall s, String.eqb (last_item (split LF s)) "" =
                    (String.eqb s "" || endswith s nl)) as E.
  { intros s. apply eq_true_iff_eq.
    rewrite String.eqb_eq, orb_true_iff, String.eqb_eq.
    apply last_line_empty. }
  rewrite !E. by destruct keep.
Qed.

Lemma C2_repair_newline_witness :
  _render "t" (DictLoader {[ "t" := "a{{ X }}" +:+ nl ]}) {[ "X" := "b" ]}
    Undefined true [] = Ok ("ab" +:+ nl).
Proof.
  apply (C2_repair_newline "t" (DictLoader {[ "t" := "a{{ X }}" +:+ nl ]})
           {[ "X" := "b" ]} Undefined true ("a{{ X }}" +:+ nl)
           [TemplateData "a"; Name "X"] "ab"); reflexivity.
Defined.

(** ** C5: getenv *)

(** C5.  Without a default, [getenv] raises an error whose message names
    the variable when it is not set; with a default it returns the value
    of the variable when it is set and the default otherwise. *)
Theorem C5_getenv (environ : gmap string string) (name default : string) :
  (environ !! name = None ->
     getenv environ name None =
       Raise (Exception ("can't find " +:+ name +:+ " environnement variable"))
     /\ getenv environ name (Some default) = Ok default) /\
  (forall v, environ !! name = Some v ->
     getenv environ name None = Ok v /\
     getenv environ name (Some default) = Ok v).
Proof.
  unfold getenv. split.
  - by intros ->.
  - by intros v ->.
Qed.

Lemma C5_getenv_witness :
  getenv {[ "HOME" := "/root" ]} "FOO" None =
    Raise (Exception "can't find FOO environnement variable") /\
  getenv {[ "HOME" := "/root" ]} "FOO" (Some "bar") = Ok "bar" /\
  getenv {[ "HOME" := "/root" ]} "HOME" (Some "bar") = Ok "/root".
Proof.
  destruct (C5_getenv {[ "HOME" := "/root" ]} "FOO" "bar") as [Hunset _].
  destruct (C5_getenv {[ "HOME" := "/root" ]} "HOME" "bar") as [_ Hset].
  destruct (Hunset eq_refl) as [H1 H2].
  destruct (Hset "/root" eq_refl) as [_ H3].
  exact (conj H1 (conj H2 H3)).
Defined.

(** ** Single-file mode *)

Lemma process_file_unfold input output variables die remove paths keep exts w :
  truthy_opt input = true ->
  process_file input output variables die remove paths keep exts w =
    match output_filename_of input output with
    | Raise e => (w, Raise e)
    | Ok out =>
        match _render_file (default "" input) variables
                (if die then StrictUndefined else Undefined) paths keep exts w with
        | Raise e => (w, Raise e)
        | Ok text => write_output input out remove text w
        end
    end.
Proof.
  intros Hin. unfold process_file, render_input, write_output.
  rewrite Hin. change (negb true) with false.
  cbv [andb mbind io_bind lift ask].
  destruct (output_filename_of input output) as [out|e]; [|done].
  by destruct (_render_file _ _ _ _ _ _ w) as [text|e].
Qed.

(** C7, counterexample.  The input filename [".tpl"] ends with the
    extension, and [process_file] gives no output path for it: it raises. *)
Lemma C7_extension_alone_is_fatal :
  endswith ".tpl" EXTENSION = true /\
  output_filename_of (Some ".tpl") None = Raise (Fatal "Output filename is empty") /\
  process_file (Some ".tpl") None ∅ true true [] true [] world0 =
    (world0, Raise (Fatal "Output filename is empty")).
Proof. by vm_compute. Qed.

(** C7, amended.  For an input filename given without an output filename:
    when the input is a non-empty text followed by the extension, the
    output path is that text; when it is the extension alone, or does not
    end with the extension, [process_file] raises [Fatal] and leaves the
    world as it was, whatever the rendering would have given. *)
Theorem C7_default_output_filename (input stem : string)
    (output : option string) variables (die remove : bool) paths
    (keep : bool) exts (w : world) :
  truthy input = true ->
  truthy_opt output = false ->
  (input = stem +:+ EXTENSION -> stem <> "" ->
     output_filename_of (Some input) output = Ok (Some stem)) /\
  (input = EXTENSION ->
     process_file (Some input) output variables die remove paths keep exts w
     = (w, Raise (Fatal "Output filename is empty"))) /\
  (endswith input EXTENSION = false ->
     process_file (Some input) output variables die remove paths keep exts w
     = (w, Raise (Fatal
         "If no output filename is given, input filename must end in .tpl"))).
Proof.
  intros Hin Hout. split; [|split].
  - intros -> Hstem. unfold output_filename_of; simpl truthy_opt.
    rewrite Hin, Hout; simpl.
    assert (endswith (stem +:+ EXTENSION) EXTENSION = true) as ->
      by (apply endswith_spec; eauto).
    simpl. change 4 with (String.length EXTENSION).
    rewrite str_drop_last_append.
    by destruct stem.
  - intros ->. rewrite process_file_unfold by done.
    unfold output_filename_of; simpl truthy_opt. by rewrite Hout.
  - intros Hend. rewrite process_file_unfold by done.
    unfold output_filename_of; simpl truthy_opt; simpl default.
    by rewrite Hin, Hout, Hend.
Qed.

Lemma C7_default_output_filename_witness :
  output_filename_of (Some "config.yml.tpl") None = Ok (Some "config.yml") /\
  process_file (Some ".tpl") (Some "") ∅ true true [] true [] world0 =
    (world0, Raise (Fatal "Output filename is empty")) /\
  process_file (Some "config.yml") None ∅ true true [] true [] world0 =
    (world0, Raise (Fatal
       "If no output filename is given, input filename must end in .tpl")).
Proof.
  split; [|split].
  - apply (C7_default_output_filename "config.yml.tpl" "config.yml" None
             ∅ true true [] true [] world0); reflexivity || done.
  - apply (C7_default_output_filename ".tpl" "" (Some "")
             ∅ true true [] true [] world0); reflexivity.
  - apply (C7_default_output_filename "config.yml" "" None
             ∅ true true [] true [] world0); reflexivity.
Defined.

Lemma process_file_stdin_unfold input output variables die paths keep exts w :
  truthy_opt input = false ->
  process_file input output variables die true paths keep exts w =
    match _render_string (stdin w) variables
            (if die then StrictUndefined else Undefined) paths keep exts w with
    | Raise e => (w, Raise e)
    | Ok text => write_output input output true text w
    end.
Proof.
  intros Hin. unfold process_file, render_input, write_output,
    output_filename_of.
  rewrite Hin. cbv [andb negb mbind io_bind lift ask stdin_read].
  by destruct (_render_string _ _ _ _ _ _ w) as [text|e].
Qed.

(** Writing the output to a file that can be written, then removing the
    template when asked to. *)
Lemma write_output_file input out remove text w :
  truthy input = true ->
  truthy out = true -> out <> "-" ->
  out ∉ readonly w ->
  is_Some (<[out := text]> (fs w) !! input) ->
  let r := write_output (Some input) (Some out) remove text w in
  r.2 = Ok () /\
  fs r.1 =
    (if remove then delete input (<[out := text]> (fs w))
     else <[out := text]> (fs w)) /\
  events r.1 =
    (events w ++ [EvOpen out; EvWrite out text] ++
     (if remove then [EvUnlink input] else []))%list.
Proof.
  intros Hin Hout Hdash Hrw [c Hc]. unfold write_output. simpl truthy_opt.
  rewrite Hin, Hout. rewrite bool_decide_false by congruence.
  cbv [andb negb mbind io_bind open_w file_write default id].
  rewrite bool_decide_false by done. simpl fs.
  rewrite lookup_insert_eq, insert_insert_eq. simpl String.append.
  destruct remove; simpl.
  - unfold unlink; simpl. rewrite Hc. simpl.
    by rewrite <-!app_assoc.
  - by rewrite <-!app_assoc.
Qed.

(** C8.  In single-file mode a rendering that raises leaves the world as
    it was: no file is opened, written or removed.  After a rendering that
    succeeds for an input file, the output file is opened and written, and
    then the template is removed; with [--keep-template] it is not. *)
Theorem C8_render_then_write_then_unlink (input out : string)
    (output : option string) (text : string) variables
    (die remove : bool) paths (keep : bool) exts (w : world) :
  truthy input = true ->
  (forall e,
     _render_file input variables
       (if die then StrictUndefined else Undefined) paths keep exts w = Raise e ->
     exists e',
       process_file (Some input) output variables die remove paths keep exts w
       = (w, Raise e')) /\
  (_render_file input variables
     (if die then StrictUndefined else Undefined) paths keep exts w = Ok text ->
   output_filename_of (Some input) output = Ok (Some out) ->
   out <> "-" ->
   out ∉ readonly w ->
   is_Some (<[out := text]> (fs w) !! input) ->
   let r :=
     process_file (Some input) output variables die remove paths keep exts w in
   r.2 = Ok () /\
   fs r.1 =
     (if remove then delete input (<[out := text]> (fs w))
      else <[out := text]> (fs w)) /\
   events r.1 =
     (events w ++ [EvOpen out; EvWrite out text] ++
      (if remove then [EvUnlink input] else []))%list).
Proof.
  intros Hin. split.
  - intros e He. rewrite process_file_unfold by done. simpl default.
    rewrite He. destruct (output_filename_of _ _); eauto.
  - intros Hr Ho Hdash Hrw Hex. rewrite process_file_unfold by done.
    simpl default. rewrite Hr, Ho.
    apply write_output_file; try done.
    unfold output_filename_of in Ho. simpl truthy_opt in Ho.
    rewrite Hin in Ho. simpl in Ho.
    destruct (truthy_opt output) eqn:Hto; simpl in Ho.
    + injection Ho as ->. done.
    + destruct (negb (endswith input EXTENSION)); [done|].
      destruct (truthy (str_drop_last _ input)) eqn:E; simpl in Ho; [|done].
      by injection Ho as <-.
Qed.

Lemma C8_render_then_write_then_unlink_witness :
  (exists e',
     process_file (Some "config.yml.tpl") None ∅ true true [] true [] world0
     = (world0, Raise e')) /\
  let r :=
    process_file (Some "config.yml.tpl") None {[ "PORT" := "9000" ]}
      true true [] true [] world0 in
  r.2 = Ok () /\
  fs r.1 = delete "config.yml.tpl"
             (<["config.yml" := "port: 9000" +:+ nl]> (fs world0)) /\
  events r.1 =
    [EvOpen "config.yml"; EvWrite "config.yml" ("port: 9000" +:+ nl);
     EvUnlink "config.yml.tpl"].
Proof.
  pose proof (C8_render_then_write_then_unlink "config.yml.tpl" "config.yml"
                None ("port: 9000" +:+ nl) ∅ true true [] true [] world0
                eq_refl) as [Hfail _].
  pose proof (C8_render_then_write_then_unlink "config.yml.tpl" "config.yml"
                None ("port: 9000" +:+ nl) {[ "PORT" := "9000" ]} true true []
                true [] world0 eq_refl) as [_ Hok].
  split.
  - exact (Hfail (Fatal "'PORT' is undefined") eq_refl).
  - apply Hok; [reflexivity|reflexivity|discriminate|set_solver|].
    by exists ("port: {{ PORT }}" +:+ nl).
Defined.

(** ** Recursive mode *)

(** The inline template is found before the file system is looked at. *)
Lemma render_string_world c extra die paths keep exts (w w' : world) :
  environ w' = environ w ->
  render_string c extra die paths keep exts w' =
  render_string c extra die paths keep exts w.
Proof.
  intros Henv. unfold render_string, _render_string, _render. rewrite Henv.
  unfold get_template, get_source; simpl. unfold DictLoader.
  by rewrite !lookup_singleton_eq.
Qed.

Lemma for_each_raise {A} (body : A -> io unit) x l w w' e :
  body x w = (w', Raise e) -> for_each (x :: l) body w = (w', Raise e).
Proof. intros H. simpl. cbv [mbind io_bind]. by rewrite H. Qed.

(** An argument with a comma: the name, the value, and what follows a
    second comma. *)
Lemma extra_var_item name val :
  has_char "," name = false -> has_char "," val = false ->
  split "," (name +:+ "," +:+ val) = [name; val].
Proof.
  intros Hn Hv. change ("," +:+ val) with (String "," val).
  by rewrite split_first, split_no_sep.
Qed.

Lemma extra_var_item_rest name val rest :
  has_char "," name = false -> has_char "," val = false ->
  split "," (name +:+ "," +:+ val +:+ "," +:+ rest)
  = name :: val :: split "," rest.
Proof.
  intros Hn Hv. change ("," +:+ val +:+ "," +:+ rest)
    with (String "," (val +:+ String "," rest)).
  by rewrite !split_first.
Qed.

Lemma process_one_text a root target_root f c w :
  path_join root f ∉ binary w ->
  fs w !! path_join root f = Some c ->
  path_join target_root f ∉ readonly w ->
  process_one a root target_root f w =
    let target := path_join target_root f in
    let w1 := with_fs w (<[target := ""]> (fs w)) [EvOpen target] in
    match render_step a c w with
    | Raise e => (w1, Raise e)
    | Ok newc => file_write target newc w1
    end.
Proof.
  intros Hbin Hsrc Hrw. unfold process_one, render_step.
  cbv [mbind io_bind is_binary file_read open_w lift ask result_bind].
  rewrite bool_decide_false by done. rewrite Hsrc.
  rewrite bool_decide_false by done.
  destruct (extra_variables (extra_var a) ∅) as [extra|e]; [|done].
  rewrite (render_string_world _ _ _ _ _ _ w) by done.
  by destruct (render_string c extra _ _ _ _ w).
Qed.

(** The walk of a source directory whose first entry is the directory
    itself, without sub-directories: [main] runs the loop over its files
    first. *)
Lemma main_first_directory (a : args) files more w w' e :
  startswith (SOURCE_DIRECTORY a) "/" = true ->
  startswith (TARGET_DIRECTORY a) "/" = true ->
  SOURCE_DIRECTORY a ∈ dirs w ->
  TARGET_DIRECTORY a ∈ dirs w ->
  tree w (SOURCE_DIRECTORY a) = (SOURCE_DIRECTORY a, ([], files)) :: more ->
  for_each files
    (process_one a (SOURCE_DIRECTORY a) (TARGET_DIRECTORY a)) w
  = (w', Raise e) ->
  Renvtpl.main a w = (w', Raise e).
Proof.
  intros Hs Ht Hsd Htd Htree Hfiles. unfold Renvtpl.main.
  cbv [mbind io_bind abspath get_world check_directory_or_create_it_or_die
         mkdir_p].
  rewrite Hs, Ht.
  rewrite (bool_decide_true (SOURCE_DIRECTORY a ∈ dirs w)) by done.
  cbv beta iota delta [negb].
  rewrite (bool_decide_true (TARGET_DIRECTORY a ∈ dirs w)) by done.
  simpl. rewrite Htree. apply for_each_raise.
  unfold process_directory. rewrite String.eqb_refl.
  cbv [mbind io_bind]. simpl. by rewrite Hfiles.
Qed.

(** ** C9: the target is opened before the rendering *)

(** C9.  For a source file that is not binary, the target file is opened
    for writing, and so created or emptied, before the text is rendered:
    when the rendering raises, the loop over the files ends with that
    exception, the files after it are not processed, and the target is
    left as an empty file.  When the file is the first one of the source
    directory, this is how [main] ends. *)
Theorem C9_target_opened_before_render (a : args)
    (root target_root f c : string) (others : list string) (e : exn)
    (w : world) :
  path_join root f ∉ binary w ->
  fs w !! path_join root f = Some c ->
  path_join target_root f ∉ readonly w ->
  render_step a c w = Raise e ->
  let r := for_each (f :: others) (process_one a root target_root) w in
  r.2 = Raise e /\
  fs r.1 = <[path_join target_root f := ""]> (fs w) /\
  events r.1 = (events w ++ [EvOpen (path_join target_root f)])%list /\
  (forall more,
     root = SOURCE_DIRECTORY a -> target_root = TARGET_DIRECTORY a ->
     startswith root "/" = true -> startswith target_root "/" = true ->
     root ∈ dirs w -> target_root ∈ dirs w ->
     tree w root = (root, ([], f :: others)) :: more ->
     Renvtpl.main a w = r).
Proof.
  intros Hbin Hsrc Hrw Hr.
  pose proof (process_one_text a root target_root f c w Hbin Hsrc Hrw) as H.
  rewrite Hr in H. simpl in H.
  pose proof (for_each_raise _ _ others _ _ _ H) as Hloop.
  rewrite Hloop. simpl. repeat split.
  intros more -> -> Hs Ht Hsd Htd Htree.
  by apply (main_first_directory a (f :: others) more).
Qed.

Lemma C9_target_opened_before_render_witness :
  let r := Renvtpl.main args1 world1 in
  r.2 = Raise (Fatal "'HOST' is undefined") /\
  fs r.1 = <["/dst/a.conf" := ""]> (fs world1) /\
  events r.1 = [EvOpen "/dst/a.conf"].
Proof.
  destruct (C9_target_opened_before_render args1 "/src" "/dst" "a.conf"
              ("host: {{ HOST }}" +:+ nl) ["z.conf"]
              (Fatal "'HOST' is undefined") world1)
    as (H1 & H2 & H3 & Hmain);
    [set_solver|reflexivity|set_solver|reflexivity|].
  rewrite (Hmain [] eq_refl eq_refl eq_refl eq_refl); [|set_solver..|reflexivity].
  exact (conj H1 (conj H2 H3)).
Defined.

(** ** C10: the extra variables *)

Lemma index_split_0 sep s : exists h, index (split sep s) 0 = Ok h.
Proof.
  unfold index. destruct (split sep s) as [|h r] eqn:E;
    [by destruct (split_not_nil sep s)|by exists h].
Qed.

Lemma extra_variables_cons x l acc :
  extra_variables (x :: l) acc =
    key ← index (split "," x) 0;
    val ← index (split "," x) 1;
    extra_variables l (<[key := val]> acc).
Proof. reflexivity. Qed.

(** One argument without a comma makes the whole dictionary fail. *)
Lemma extra_variables_no_comma x l acc :
  x ∈ l -> has_char "," x = false ->
  extra_variables l acc = Raise (IndexError "list index out of range").
Proof.
  intros Hx Hno. revert acc.
  induction l as [|y l IH]; intros acc; [by apply elem_of_nil in Hx|].
  simpl. destruct (index_split_0 "," y) as [h ->]. simpl.
  apply elem_of_cons in Hx as [<-|Hx].
  - by rewrite split_no_sep.
  - unfold index at 1. destruct (split "," y !! 1); simpl; [by apply IH|done].
Qed.

(** C10.  The name of an extra variable is the text before the first
    comma of the argument and its value the text between the first and the
    second comma; what follows a second comma is dropped.  An argument
    without a comma raises [IndexError], which [main] does not catch: the
    processing of the first text file ends with it, and nothing is
    reported on the standard error. *)
Theorem C10_extra_var (name val rest x : string) (l : list string)
    (acc : gmap string string) (a : args) (f c : string)
    (files : list string) more (w : world) :
  has_char "," name = false ->
  has_char "," val = false ->
  has_char "," x = false ->
  extra_variables ((name +:+ "," +:+ val) :: l) acc
    = extra_variables l (<[name := val]> acc) /\
  extra_variables ((name +:+ "," +:+ val +:+ "," +:+ rest) :: l) acc
    = extra_variables l (<[name := val]> acc) /\
  (x ∈ l ->
   extra_variables l acc = Raise (IndexError "list index out of range")) /\
  (x ∈ extra_var a ->
   startswith (SOURCE_DIRECTORY a) "/" = true ->
   startswith (TARGET_DIRECTORY a) "/" = true ->
   SOURCE_DIRECTORY a ∈ dirs w -> TARGET_DIRECTORY a ∈ dirs w ->
   tree w (SOURCE_DIRECTORY a) = (SOURCE_DIRECTORY a, ([], f :: files)) :: more ->
   path_join (SOURCE_DIRECTORY a) f ∉ binary w ->
   fs w !! path_join (SOURCE_DIRECTORY a) f = Some c ->
   path_join (TARGET_DIRECTORY a) f ∉ readonly w ->
   let r := Renvtpl.main a w in
   r.2 = Raise (IndexError "list index out of range") /\
   events r.1 =
     (events w ++ [EvOpen (path_join (TARGET_DIRECTORY a) f)])%list).
Proof.
  intros Hn Hv Hx. split; [|split; [|split]].
  - by rewrite extra_variables_cons, extra_var_item.
  - by rewrite extra_variables_cons, extra_var_item_rest.
  - intros Hin. by apply (extra_variables_no_comma x).
  - intros Hin Hs Ht Hsd Htd Htree Hbin Hsrc Hrw.
    set (target := path_join (TARGET_DIRECTORY a) f).
    assert (Renvtpl.main a w =
              (with_fs w (<[target := ""]> (fs w)) [EvOpen target],
               Raise (IndexError "list index out of range"))) as ->; [|done].
    apply (main_first_directory a (f :: files) more); try done.
    apply for_each_raise. rewrite (process_one_text _ _ _ _ c) by done.
    unfold render_step.
    by rewrite (extra_variables_no_comma x).
Qed.

Lemma C10_extra_var_witness :
  extra_variables ["HOST,example.org"] ∅ = Ok {[ "HOST" := "example.org" ]} /\
  extra_variables ["HOST,example.org,8080"] ∅
    = Ok {[ "HOST" := "example.org" ]} /\
  extra_variables ["HOST,a"; "DEBUG"] ∅
    = Raise (IndexError "list index out of range") /\
  (Renvtpl.main args2 world1).2 = Raise (IndexError "list index out of range") /\
  events (Renvtpl.main args2 world1).1 = [EvOpen "/dst/a.conf"].
Proof.
  destruct (C10_extra_var "HOST" "example.org" "8080" "DEBUG" [] ∅ args2
              "a.conf" ("host: {{ HOST }}" +:+ nl) ["z.conf"] [] world1
              eq_refl eq_refl eq_refl) as (H1 & H2 & H3' & H4).
  destruct (C10_extra_var "HOST" "example.org" "8080" "DEBUG"
              ["HOST,a"; "DEBUG"] ∅ args2
              "a.conf" ("host: {{ HOST }}" +:+ nl) ["z.conf"] [] world1
              eq_refl eq_refl eq_refl) as (H1' & H2' & H3 & H4').
  split; [exact H1|]. split; [exact H2|]. split.
  - apply H3, list_elem_of_further, list_elem_of_here.
  - apply H4;
      [apply list_elem_of_further, list_elem_of_here|reflexivity|reflexivity|
       apply elem_of_union_l, elem_of_singleton_2; reflexivity|
       apply elem_of_union_r, elem_of_singleton_2; reflexivity|
       reflexivity|apply not_elem_of_empty|reflexivity|
       apply not_elem_of_empty].
Defined.

(** ** C6: the helper [environment] *)

Section Environment.

Local Abbreviation key_le := (fun a b : string * value => String.le a.1 b.1).

#[local] Instance key_le_total : Total key_le.
Proof. intros a b. apply (total String.le). Qed.

#[local] Instance key_le_trans : Transitive key_le.
Proof. intros a b c. apply (transitivity (R := String.le)). Qed.

Lemma elem_of_sorted items kv : kv ∈ sorted items <-> kv ∈ items.
Proof. unfold sorted. by rewrite merge_sort_Permutation. Qed.

(** A common prefix does not change the order. *)
Lemma compare_append p a b :
  String.compare (p +:+ a) (p +:+ b) = String.compare a b.
Proof.
  induction p as [|c p IH]; simpl; [done|].
  assert (Ascii.compare c c = Eq) as ->; [|done].
  unfold Ascii.compare. apply N.compare_refl.
Qed.

Lemma le_append p a b : String.le (p +:+ a) (p +:+ b) -> String.le a b.
Proof. unfold String.le, String.leb. by rewrite compare_append. Qed.

Lemma selected_sorted prefix (l : list (string * value)) :
  StronglySorted key_le l -> NoDup l.*1 ->
  let out :=
    (fun kv => (str_drop (String.length prefix) kv.1, kv.2)) <$>
    List.filter (fun kv => negb (callable kv.2) && startswith kv.1 prefix) l in
  StronglySorted String.le out.*1 /\ NoDup out.*1 /\
  (forall k, k ∈ out.*1 -> prefix +:+ k ∈ l.*1).
Proof.
  induction 1 as [|[k v] l Hl IH Hk]; intros Hnd; simpl.
  { repeat split; [constructor|constructor|]. by intros k ?%elem_of_nil. }
  apply NoDup_cons in Hnd as [Hk' Hnd].
  destruct (IH Hnd) as (IHs & IHn & IHm). clear IH.
  destruct (negb (callable v) && startswith k prefix) eqn:E; simpl.
  - apply andb_true_iff in E as [_ [t ->]%startswith_spec].
    rewrite str_drop_append. split; [|split].
    + constructor; [done|]. apply Forall_forall. intros k' Hin.
      apply (le_append prefix).
      apply IHm, list_elem_of_fmap in Hin as [[k2 v2] [E2 Hin]].
      simpl in E2. rewrite E2.
      rewrite Forall_forall in Hk. apply (Hk _ Hin).
    + apply NoDup_cons. split; [|done]. intros Hin. by apply Hk', IHm.
    + intros k' [->|Hin]%elem_of_cons; [left|right; by apply IHm].
  - split; [done|]. split; [done|]. intros k' Hin. right. by apply IHm.
Qed.

(** C6.  The helper yields a pair for exactly the entries of the context
    whose key starts with the prefix and whose value is not callable, with
    the prefix taken off the key; the keys come in increasing order and
    each of them once.  Over the variables [APP_PORT] and [OTHER], with
    the globals of the template, the prefix [APP_] gives the single pair
    of [PORT] and ["8080"]. *)
Theorem C6_get_environment (context : gmap string value) (prefix : string) :
  (forall k v,
     (k, v) ∈ get_environment context prefix <->
     context !! (prefix +:+ k) = Some v /\ callable v = false) /\
  StronglySorted String.le (get_environment context prefix).*1 /\
  NoDup (get_environment context prefix).*1 /\
  get_environment
    (template_context {[ "APP_PORT" := "8080"; "OTHER" := "x" ]}) "APP_"
  = [("PORT", VStr "8080")].
Proof.
  split; [|split; [|split]].
  - intros k v. unfold get_environment. rewrite list_elem_of_fmap. split.
    + intros [[k0 v0] [[= -> ->] Hin]].
      apply list_elem_of_In, filter_In in Hin as [Hin Hp].
      apply list_elem_of_In, elem_of_sorted, elem_of_map_to_list in Hin.
      simpl in Hp. apply andb_true_iff in Hp as [Hc [t ->]%startswith_spec].
      rewrite str_drop_append. split; [done|]. by apply negb_true_iff.
    + intros [Hl Hc]. exists (prefix +:+ k, v). simpl.
      rewrite str_drop_append. split; [done|].
      apply list_elem_of_In, filter_In. split.
      * by apply list_elem_of_In, elem_of_sorted, elem_of_map_to_list.
      * simpl. rewrite Hc. simpl. apply startswith_spec. by exists k.
  - apply selected_sorted.
    + apply StronglySorted_merge_sort; apply _.
    + unfold sorted. rewrite merge_sort_Permutation.
      apply NoDup_fst_map_to_list.
  - apply selected_sorted.
    + apply StronglySorted_merge_sort; apply _.
    + unfold sorted. rewrite merge_sort_Permutation.
      apply NoDup_fst_map_to_list.
  - by vm_compute.
Qed.

End Environment.

(** ** C4: the helper [shell] *)

Section Shell.













End Shell.

(** ** C1: the two policies for a variable that is not defined *)

Section Undefined.










End Undefined.

(** ** C3: the blank lines *)

Section BlankLines.

Import Re.

Lemma sub_blank_lines_cons c t :
  sub_blank_lines (String c t) =
    if Ascii.eqb c LF then
      match match_blank t with
      | Some r => String LF (String LF (sub_blank_lines r))
      | None => String c (sub_blank_lines t)
      end
    else String c (sub_blank_lines t).
Proof.
  simp sub_blank_lines. destruct (Ascii.eqb c LF); simpl; [|done].
  by destruct (match_blank t).
Qed.

Lemma isspace_LF : isspace LF = true.
Proof. reflexivity. Qed.

Lemma match_blank_cons c t :
  match_blank (String c t) =
    if isspace c then
      match match_blank t with
      | Some r => Some r
      | None => if Ascii.eqb c LF then Some t else None
      end
    else None.
Proof. reflexivity. Qed.



Lemma not_space_not_LF c : isspace c = false -> Ascii.eqb c LF = false.
Proof.
  intros Hc. destruct (Ascii.eqb_spec c LF) as [->|]; [|done].
  by rewrite isspace_LF in Hc.
Qed.


Lemma has_char_cons c c' t :
  has_char c (String c' t) = Ascii.eqb c c' || has_char c t.
Proof. reflexivity. Qed.



















(** The second pattern has the letter s where white space was meant: a
    first line made of that letter is removed. *)
Example reduce_blank_lines_letter_s :
  reduce_blank_lines (nl +:+ "s" +:+ nl +:+ "foo") = nl +:+ "foo".
Proof. by vm_compute. Qed.



End BlankLines.

(** * Further properties *)

(** ** Single-file mode: the edges of [process_file] and [main] *)

Section SingleFile.

(** X1.  [--keep-template] without an input file: [process_file] raises
    before the standard input is read or anything is written, and [main]
    reports the error and exits with status 1. *)
Theorem keep_template_without_input (a : Envtpl.args) variables
    (die : bool) paths (keep : bool) exts (w : world) :
  truthy_opt (input_file a) = false ->
  keep_template a = true ->
  process_file (input_file a) (output_file a) variables die false paths keep
    exts w
  = (w, Raise (Fatal
       "--keep-template only makes sense if you specify an input file")) /\
  let r := Envtpl.main a w in
  exit_status r.2 = 1%Z /\
  fs r.1 = fs w /\
  events r.1 =
    events w ++
    [EvStderr ("Error: --keep-template only makes sense if you specify an input file"
               +:+ nl)].
Proof.
  intros Hin Hkeep.
  assert (forall v d p k e,
            process_file (input_file a) (output_file a) v d false p k e w
            = (w, Raise (Fatal
                 "--keep-template only makes sense if you specify an input file")))
    as Hpf.
  { intros. unfold process_file. by rewrite Hin. }
  split; [apply Hpf|].
  unfold Envtpl.main. rewrite Hkeep. change (negb true) with false.
  rewrite Hpf. by repeat split.
Qed.

Lemma keep_template_without_input_witness :
  let a := {| input_file := None; output_file := Some "out";
              search_paths := None; allow_missing := false;
              keep_template := true; reduce_multi_blank_lines := false;
              jinja2_extension := None |} in
  exit_status (Envtpl.main a world0).2 = 1%Z /\
  fs (Envtpl.main a world0).1 = fs world0.
Proof.
  intros a.
  destruct (keep_template_without_input a ∅ true [] true [] world0
              eq_refl eq_refl) as (_ & H1 & H2 & _).
  exact (conj H1 H2).
Defined.

Lemma main_reports (a : Envtpl.args) (w w' : world) (e : exn) :
  main_process_file a w = (w', Raise e) ->
  is_Fatal_or_IOError e = true ->
  Envtpl.main a w =
    (with_fs w' (fs w') [EvStderr ("Error: " +:+ message e +:+ nl)],
     Raise (SystemExit 1)).
Proof.
  unfold main_process_file, Envtpl.main. intros -> He. by rewrite He.
Qed.

Lemma main_succeeds (a : Envtpl.args) (w w' : world) :
  main_process_file a w = (w', Ok ()) ->
  Envtpl.main a w = (w', Raise (SystemExit 0)).
Proof. unfold main_process_file, Envtpl.main. by intros ->. Qed.

(** X2.  With the output filename ["-"], given or left from the input filename
    ["-.tpl"], the rendered text goes to the standard output: no file of
    that name is opened, and the template is removed as usual. *)
Theorem dash_output_goes_to_stdout (input : string) (output : option string)
    (text : string) variables (die remove : bool) paths (keep : bool) exts
    (w : world) :
  truthy input = true ->
  output_filename_of (Some input) output = Ok (Some "-") ->
  _render_file input variables (if die then StrictUndefined else Undefined)
    paths keep exts w = Ok text ->
  is_Some (fs w !! input) ->
  let r :=
    process_file (Some input) output variables die remove paths keep exts w in
  r.2 = Ok () /\
  fs r.1 = (if remove then delete input (fs w) else fs w) /\
  events r.1 =
    events w ++ [EvStdout text] ++ (if remove then [EvUnlink input] else []).
Proof.
  intros Hin Ho Hr [c Hc]. rewrite process_file_unfold by done.
  simpl default. rewrite Ho, Hr. unfold write_output. simpl truthy_opt.
  rewrite Hin. rewrite bool_decide_true by done.
  cbv [andb negb mbind io_bind stdout_write truthy].
  destruct remove; simpl.
  - unfold unlink; simpl. rewrite Hc. simpl. by rewrite <-app_assoc.
  - done.
Qed.

Lemma dash_output_goes_to_stdout_witness :
  let r := process_file (Some "-.tpl") None {[ "PORT" := "9000" ]}
             true true [] true [] world3 in
  r.2 = Ok () /\ fs r.1 = delete "-.tpl" (fs world3) /\
  events r.1 = [EvStdout ("port: 9000" +:+ nl); EvUnlink "-.tpl"].
Proof.
  apply (dash_output_goes_to_stdout "-.tpl" None ("port: 9000" +:+ nl)
           {[ "PORT" := "9000" ]} true true [] true [] world3);
    [reflexivity|reflexivity|reflexivity|].
  by exists ("port: {{ PORT }}" +:+ nl).
Defined.

(** X3.  When the output filename is the input filename and the template is
    not kept, the rendered text is written over the template and the file
    is then removed: nothing of the output is left. *)
Theorem output_over_input_is_removed (input text : string) variables
    (die : bool) paths (keep : bool) exts (w : world) :
  truthy input = true ->
  input <> "-" ->
  input ∉ readonly w ->
  _render_file input variables (if die then StrictUndefined else Undefined)
    paths keep exts w = Ok text ->
  let r :=
    process_file (Some input) (Some input) variables die true paths keep
      exts w in
  r.2 = Ok () /\
  fs r.1 !! input = None /\
  events r.1 =
    events w ++ [EvOpen input; EvWrite input text; EvUnlink input].
Proof.
  intros Hin Hdash Hrw Hr. rewrite process_file_unfold by done.
  simpl default. rewrite Hr.
  assert (output_filename_of (Some input) (Some input) = Ok (Some input))
    as ->.
  { unfold output_filename_of. simpl truthy_opt. by rewrite Hin. }
  destruct (write_output_file input input true text w Hin Hin Hdash Hrw)
    as (H1 & H2 & H3).
  { rewrite lookup_insert_eq. by eexists. }
  split; [done|]. split; [|done]. rewrite H2. apply lookup_delete_eq.
Qed.

Lemma output_over_input_is_removed_witness :
  let r := process_file (Some "config.yml.tpl") (Some "config.yml.tpl")
             {[ "PORT" := "9000" ]} true true [] true [] world0 in
  r.2 = Ok () /\ fs r.1 !! "config.yml.tpl" = None.
Proof.
  destruct (output_over_input_is_removed "config.yml.tpl"
              ("port: 9000" +:+ nl) {[ "PORT" := "9000" ]} true [] true []
              world0) as (H1 & H2 & _);
    [reflexivity|discriminate|apply not_elem_of_empty|reflexivity|].
  exact (conj H1 H2).
Defined.

(** X4.  When the output file cannot be opened for writing, [process_file]
    raises the [IOError] of the system after the rendering and leaves the
    world as it was, the template included; [main] reports the message of
    that error and exits with status 1. *)
Theorem unwritable_output_keeps_template (input out text : string)
    (output : option string) (keep_tpl : bool) (w : world) :
  truthy input = true ->
  output_filename_of (Some input) output = Ok (Some out) ->
  out <> "-" ->
  out ∈ readonly w ->
  _render_file input (environ w) StrictUndefined [] true [] w = Ok text ->
  exists msg,
    main_process_file (file_args input output keep_tpl) w
    = (w, Raise (IOError msg)) /\
    let r := Envtpl.main (file_args input output keep_tpl) w in
    exit_status r.2 = 1%Z /\
    fs r.1 = fs w /\
    events r.1 = events w ++ [EvStderr ("Error: " +:+ msg +:+ nl)].
Proof.
  intros Hin Ho Hdash Hro Hr.
  assert (truthy out = true) as Hout.
  { unfold output_filename_of in Ho. simpl truthy_opt in Ho.
    rewrite Hin in Ho. simpl in Ho.
    destruct (truthy_opt output) eqn:Hto; simpl in Ho.
    - by injection Ho as ->.
    - destruct (negb (endswith input EXTENSION)); [done|].
      destruct (truthy (str_drop_last _ input)) eqn:E; simpl in Ho; [|done].
      by injection Ho as <-. }
  assert (main_process_file (file_args input output keep_tpl) w
          = (w, Raise (PermissionError out))) as Hp.
  { unfold main_process_file, file_args. simpl.
    rewrite process_file_unfold by done. simpl default.
    assert (_unicodify <$> environ w = environ w) as -> by apply map_fmap_id.
    rewrite Ho, Hr. unfold write_output. simpl truthy_opt.
    rewrite Hout. rewrite bool_decide_false by congruence.
    cbv [andb negb mbind io_bind open_w default id].
    by rewrite bool_decide_true. }
  eexists. split; [exact Hp|]. by rewrite (main_reports _ _ _ _ Hp).
Qed.

Lemma unwritable_output_keeps_template_witness :
  let r := Envtpl.main (file_args "-.tpl" (Some "locked") false) world3 in
  exit_status r.2 = 1%Z /\ fs r.1 = fs world3.
Proof.
  destruct (unwritable_output_keeps_template "-.tpl" "locked"
              ("port: 9000" +:+ nl) (Some "locked") false world3)
    as (msg & _ & H1 & H2 & _);
    [reflexivity|reflexivity|discriminate|
     simpl; apply elem_of_singleton_2; reflexivity|reflexivity|].
  exact (conj H1 H2).
Defined.



(** X6.  An input filename that is missing or empty means the standard input:
    the text read there is rendered, it goes to the standard output when
    no output filename or ["-"] is given and to the output file otherwise,
    and no file is removed. *)
Theorem standard_input_is_rendered (input output : option string)
    (out text : string) variables (die : bool) paths (keep : bool) exts
    (w : world) :
  truthy_opt input = false ->
  _render_string (stdin w) variables
    (if die then StrictUndefined else Undefined) paths keep exts w = Ok text ->
  (truthy_opt output = false \/ output = Some "-" ->
   process_file input output variables die true paths keep exts w
   = (with_fs w (fs w) [EvStdout text], Ok ())) /\
  (output = Some out -> truthy out = true -> out <> "-" ->
   out ∉ readonly w ->
   let r := process_file input output variables die true paths keep exts w in
   r.2 = Ok () /\ fs r.1 = <[out := text]> (fs w) /\
   events r.1 = events w ++ [EvOpen out; EvWrite out text]).
Proof.
  intros Hin Hr. rewrite process_file_stdin_unfold, Hr by done.
  unfold write_output. rewrite Hin. split.
  - intros [Ho| ->].
    + by rewrite Ho.
    + done.
  - intros -> Ho Hdash Hrw. simpl truthy_opt. rewrite Ho.
    rewrite bool_decide_false by congruence.
    cbv [andb negb mbind io_bind open_w file_write default id].
    rewrite bool_decide_false by done. simpl.
    rewrite lookup_insert_eq, insert_insert_eq. simpl.
    by rewrite <-app_assoc.
Qed.

Lemma standard_input_is_rendered_witness :
  process_file (Some "") None {[ "PORT" := "9000" ]} false true [] true []
    world2
  = (with_fs world2 (fs world2) [EvStdout ("host: :9000" +:+ nl)], Ok ()) /\
  fs (process_file None (Some "out") {[ "PORT" := "9000" ]} false true []
        true [] world2).1
  = <["out" := "host: :9000" +:+ nl]> (fs world2).
Proof.
  destruct (standard_input_is_rendered (Some "") None "out"
              ("host: :9000" +:+ nl) {[ "PORT" := "9000" ]} false [] true []
              world2) as [H1 _]; [reflexivity..|].
  destruct (standard_input_is_rendered None (Some "out") "out"
              ("host: :9000" +:+ nl) {[ "PORT" := "9000" ]} false [] true []
              world2) as [_ H2]; [reflexivity..|].
  split.
  - rewrite <-(H1 (or_introl eq_refl)). reflexivity.
  - apply H2; [reflexivity|reflexivity|discriminate|apply not_elem_of_empty].
Defined.

End SingleFile.

(** ** The rendering pipeline: variables, search paths, newline *)

Section Pipeline.

Lemma render_nodes_given u (extra env : gmap string string) body :
  (forall n, Name n ∈ body -> is_Some (extra !! n)) ->
  render_nodes u (template_context (extra ∪ env)) body
  = Ok (lenient_text extra body).
Proof.
  induction body as [|[d|n] r IH]; intros H; simpl; [done|..].
  - rewrite IH; [done|]. intros n Hn. apply H. by right.
  - destruct (H n) as [v Hv]; [by left|].
    rewrite IH by (intros n' Hn'; apply H; by right).
    unfold output, template_context.
    rewrite lookup_union, lookup_fmap, lookup_union, Hv.
    destruct (env !! n); simpl;
      by destruct (<["environment":=_]> DEFAULT_NAMESPACE !! n).
Qed.

(** X7.  When every variable that a template refers to is given as an extra
    variable, [render_string] renders the values given, under either
    policy and whatever the environment of the process holds: the extra
    variables win over the environment. *)
Theorem extra_variables_win (str : string) (body : list node)
    (extra : gmap string string) (die : bool) paths (keep : bool)
    (w : world) :
  parse str = Ok body ->
  (forall n, Name n ∈ body -> is_Some (extra !! n)) ->
  render_string str extra die paths keep [] w
  = Ok (normalize str (lenient_text extra body) keep).
Proof.
  intros Hp H. unfold render_string.
  rewrite (_render_string_unfold _ _ _ _ _ _ _ Hp).
  assert (_unicodify <$> environ w = environ w) as -> by apply map_fmap_id.
  by rewrite render_nodes_given.
Qed.

Lemma extra_variables_win_witness :
  render_string ("port: {{ PORT }}" +:+ nl) {[ "PORT" := "80" ]} true [] true
    [] world0 = Ok ("port: 80" +:+ nl).
Proof.
  rewrite (extra_variables_win ("port: {{ PORT }}" +:+ nl)
             [TemplateData "port: "; Name "PORT"] {[ "PORT" := "80" ]} true []
             true world0); [reflexivity|reflexivity|].
  intros n Hn.
  repeat (apply elem_of_cons in Hn as [Hn|Hn];
          [try discriminate; injection Hn as ->; by eexists|]).
  by apply elem_of_nil in Hn.
Defined.

(** X8.  A template file that exists is rendered from its own directory:
    for a template of literal text and references to names that are not
    globals, the result is that of rendering its content, whatever the
    extra search paths are and hold. *)
Theorem own_directory_first (filename src : string) (body : list node)
    variables u (paths paths' : list string) (keep : bool) (w : world) :
  fs w !! path_join (dirname filename) (basename filename) = Some src ->
  parse src = Ok body ->
  no_helper body ->
  _render_file filename variables u paths keep [] w
  = _render_file filename variables u paths' keep [] w /\
  _render_file filename variables u paths keep [] w
  = _render_string src variables u paths' keep [] w.
Proof.
  intros H Hp _.
  assert (forall ps, _render_file filename variables u ps keep [] w
                     = _render_string src variables u paths' keep [] w) as E.
  { intros ps. rewrite (_render_string_unfold _ _ _ _ _ _ _ Hp).
    unfold _render_file. apply _render_unfold; [|done]. simpl. by rewrite H. }
  split; [by rewrite !E|apply E].
Qed.

Lemma own_directory_first_witness :
  _render_file "config.yml.tpl" {[ "PORT" := "1" ]} Undefined ["/"; "x"] true
    [] world0
  = _render_file "config.yml.tpl" {[ "PORT" := "1" ]} Undefined [] true []
      world0 /\
  _render_file "config.yml.tpl" {[ "PORT" := "1" ]} Undefined ["/"; "x"] true
    [] world0
  = _render_string ("port: {{ PORT }}" +:+ nl) {[ "PORT" := "1" ]} Undefined
      [] true [] world0.
Proof.
  apply (own_directory_first "config.yml.tpl" ("port: {{ PORT }}" +:+ nl)
           [TemplateData "port: "; Name "PORT"]);
    [reflexivity|reflexivity|].
  intros n Hn.
  repeat (apply elem_of_cons in Hn as [Hn|Hn];
          [try discriminate; injection Hn as ->; reflexivity|]).
  by apply elem_of_nil in Hn.
Defined.

Lemma last_line_append_nl s : last_item (split LF (s +:+ nl)) = "".
Proof. apply last_line_empty. right. apply endswith_spec. by exists s. Qed.

(** X9.  The repair of the last newline is done once: repairing a repaired
    output changes nothing, and the repaired output of a source whose
    last line is empty ends with a newline unless it is empty. *)
Theorem repair_newline_once (source output : string) :
  repair_newline source (repair_newline source output)
  = repair_newline source output /\
  (last_item (split LF source) = "" -> output <> "" ->
   endswith (repair_newline source output) nl = true).
Proof.
  unfold repair_newline. split.
  - destruct (String.eqb (last_item (split LF source)) "") eqn:Es;
      simpl; [|done].
    destruct (String.eqb (last_item (split LF output)) "") eqn:Eo; simpl.
    + by rewrite Eo.
    + by rewrite last_line_append_nl.
  - intros Hs Ho. rewrite Hs. simpl.
    destruct (String.eqb (last_item (split LF output)) "") eqn:Eo; simpl.
    + apply String.eqb_eq, last_line_empty in Eo as [?|?]; done.
    + apply endswith_spec. by exists output.
Qed.

Lemma repair_newline_once_witness :
  endswith (repair_newline ("a" +:+ nl) "b") nl = true.
Proof.
  apply (repair_newline_once ("a" +:+ nl) "b"); [reflexivity|discriminate].
Defined.

End Pipeline.

(** ** The first substitution of the blank lines *)

Section Substitution.

Import Re.

Lemma match_blank_rest t r :
  match_blank t = Some r ->
  match_blank r = None /\
  String.length r < String.length t /\
  str_filter is_content t = str_filter is_content r.
Proof.
  revert r. induction t as [|c t IH]; intros r; [done|].
  rewrite match_blank_cons. destruct (isspace c) eqn:Ec; [|done].
  assert (str_filter is_content (String c t) = str_filter is_content t) as Hf.
  { simpl. unfold is_content at 1. by rewrite Ec. }
  rewrite Hf. simpl String.length.
  destruct (match_blank t) as [r'|] eqn:E.
  - intros [= <-]. destruct (IH _ eq_refl) as (? & ? & ?).
    split; [done|]. split; [lia|done].
  - destruct (Ascii.eqb c LF); [|done]. intros [= <-].
    split; [done|]. split; [lia|done].
Qed.

Lemma match_blank_sub_none t :
  match_blank t = None -> match_blank (sub_blank_lines t) = None.
Proof.
  induction t as [|c t IH]; [done|].
  rewrite match_blank_cons. destruct (isspace c) eqn:Ec.
  - destruct (match_blank t) eqn:E; [done|].
    destruct (Ascii.eqb c LF) eqn:El; [done|]. intros _.
    by rewrite sub_blank_lines_cons, El, match_blank_cons, Ec, IH, El.
  - intros _.
    by rewrite sub_blank_lines_cons, not_space_not_LF, match_blank_cons, Ec.
Qed.

Lemma str_filter_space c t :
  isspace c = true ->
  str_filter is_content (String c t) = str_filter is_content t.
Proof. intros H. simpl. unfold is_content at 1. by rewrite H. Qed.

Lemma sub_blank_lines_bounded n :
  forall s, String.length s <= n ->
    sub_blank_lines (sub_blank_lines s) = sub_blank_lines s /\
    String.length (sub_blank_lines s) <= String.length s /\
    str_filter is_content (sub_blank_lines s) = str_filter is_content s.
Proof.
  induction n as [|n IH]; intros [|c t] Hn; try done.
  { simpl in Hn. lia. }
  simpl in Hn. rewrite sub_blank_lines_cons.
  destruct (Ascii.eqb c LF) eqn:El.
  - apply Ascii.eqb_eq in El as ->.
    destruct (match_blank t) as [r|] eqn:E.
    + destruct (match_blank_rest _ _ E) as (Hr & Hlen & Hf).
      destruct (IH r ltac:(lia)) as (I1 & I2 & I3).
      split; [|split].
      * rewrite sub_blank_lines_cons, Ascii.eqb_refl, match_blank_cons,
          isspace_LF, (match_blank_sub_none _ Hr), Ascii.eqb_refl.
        by rewrite I1.
      * simpl String.length. lia.
      * rewrite !str_filter_space by apply isspace_LF. by rewrite I3, Hf.
    + destruct (IH t ltac:(lia)) as (I1 & I2 & I3).
      split; [|split].
      * rewrite sub_blank_lines_cons, Ascii.eqb_refl,
          (match_blank_sub_none _ E). by rewrite I1.
      * simpl String.length. lia.
      * rewrite !str_filter_space by apply isspace_LF. done.
  - destruct (IH t ltac:(lia)) as (I1 & I2 & I3).
    split; [|split].
    + rewrite sub_blank_lines_cons, El. by rewrite I1.
    + simpl String.length. lia.
    + simpl. by rewrite I3.
Qed.

Lemma match_s_newline_shorter t r :
  match_s_newline t = Some r -> String.length r < String.length t.
Proof.
  revert r. induction t as [|c t IH]; intros r; simpl; [done|].
  destruct (Ascii.eqb c "s").
  - intros H. apply IH in H. lia.
  - destruct (Ascii.eqb c LF); [|done]. intros [= <-]. lia.
Qed.

(** X10.  The first substitution, of the runs of blank lines, only takes white
    space away: applied twice it gives what it gives once, its result is
    not longer than the text, and the characters that are not white space
    are those of the text in the same order.  The two substitutions
    together never make the text longer. *)
Theorem sub_blank_lines_only_removes_space (s : string) :
  sub_blank_lines (sub_blank_lines s) = sub_blank_lines s /\
  String.length (sub_blank_lines s) <= String.length s /\
  str_filter is_content (sub_blank_lines s) = str_filter is_content s /\
  String.length (reduce_blank_lines s) <= String.length s.
Proof.
  destruct (sub_blank_lines_bounded _ s (le_n _)) as (H1 & H2 & H3).
  split; [done|]. split; [done|]. split; [done|].
  unfold reduce_blank_lines, sub_leading.
  destruct (sub_blank_lines s) as [|c t]; [done|].
  destruct (Ascii.eqb c LF); [|done].
  destruct (match_s_newline t) as [r|] eqn:E; [|done].
  apply match_s_newline_shorter in E. simpl in *. lia.
Qed.

End Substitution.

(** ** The helper [environment] in the context of a rendering *)

Section ContextVariables.

Lemma elem_of_get_environment (context : gmap string value) prefix k v :
  (k, v) ∈ get_environment context prefix <->
  context !! (prefix +:+ k) = Some v /\ callable v = false.
Proof.
  unfold get_environment. rewrite list_elem_of_fmap. split.
  - intros [[k0 v0] [[= -> ->] Hin]].
    apply list_elem_of_In, filter_In in Hin as [Hin Hp].
    apply list_elem_of_In, elem_of_sorted, elem_of_map_to_list in Hin.
    simpl in Hp. apply andb_true_iff in Hp as [Hc [t ->]%startswith_spec].
    rewrite str_drop_append. split; [done|]. by apply negb_true_iff.
  - intros [Hl Hc]. exists (prefix +:+ k, v). simpl.
    rewrite str_drop_append. split; [done|].
    apply list_elem_of_In, filter_In. split.
    + by apply list_elem_of_In, elem_of_sorted, elem_of_map_to_list.
    + simpl. rewrite Hc. simpl. apply startswith_spec. by exists k.
Qed.

(** Every global of the template is a function or a class. *)
Lemma template_globals_callable k v :
  template_globals !! k = Some v -> callable v = true.
Proof.
  unfold template_globals, DEFAULT_NAMESPACE. simpl.
  repeat (rewrite lookup_insert; case_decide; [by intros [= <-]|]).
  by rewrite lookup_empty.
Qed.

(** X11.  In the context in which [_render] renders, the helper yields the
    variables only: a pair is yielded exactly when the key with the prefix
    is a variable with that text as its value.  The functions that the
    engine and [_render] add to the context, the helper itself among them,
    are never yielded. *)
Theorem environment_yields_variables_only (variables : gmap string string)
    (prefix k : string) (v : value) :
  (k, v) ∈ get_environment (template_context variables) prefix <->
  exists s, v = VStr s /\ variables !! (prefix +:+ k) = Some s.
Proof.
  rewrite elem_of_get_environment. unfold template_context.
  fold template_globals. rewrite lookup_union, lookup_fmap.
  destruct (variables !! (prefix +:+ k)) as [s|] eqn:E; simpl.
  - assert (forall o : option value, Some (VStr s) ∪ o = Some (VStr s)) as ->
      by (by intros []).
    split.
    + intros [[= <-] _]. by exists s.
    + by intros (s' & -> & [= ->]).
  - assert (forall o : option value, None ∪ o = o) as -> by (by intros []).
    split.
    + intros [Hg Hc]. apply template_globals_callable in Hg. congruence.
    + by intros (s' & _ & ?).
Qed.

End ContextVariables.

(** ** Literal text *)

Section LiteralText.

Lemma parse_source_literal_cons c c' t :
  Ascii.eqb c "{" = false ->
  parse_source (String c (String c' t)) =
    ns ← parse_source (String c' t); Ok (push_data c ns).
Proof. intros H. simp parse_source. by rewrite H. Qed.

Lemma parse_source_literal s :
  has_char "{" s = false -> s <> "" ->
  parse_source s = Ok [TemplateData s].
Proof.
  induction s as [|c s IH]; intros Hs Hne; [done|].
  rewrite has_char_cons, (Ascii.eqb_sym "{" c) in Hs.
  apply orb_false_iff in Hs as [Hc Hs].
  destruct s as [|c' t]; [by simp parse_source|].
  rewrite (parse_source_literal_cons _ _ _ Hc), IH by done. done.
Qed.

Lemma has_char_app c s t :
  has_char c (s +:+ t) = has_char c s || has_char c t.
Proof.
  induction s as [|d s IH]; [done|]. cbn [String.append].
  by rewrite !has_char_cons, IH, orb_assoc.
Qed.

(** Rendering a text without braces with everything after the engine
    left as it is. *)
Lemma render_literal t variables u paths w :
  has_char "{" t = false -> has_char CR t = false ->
  _render_string t variables u paths true [] w
  = Ok (repair_newline t (cut_last_newline t)).
Proof.
  intros Hb Hcr.
  assert (has_char "{" (cut_last_newline t) = false) as Hb'.
  { unfold cut_last_newline. destruct (endswith t nl) eqn:E; [|done].
    apply endswith_spec in E as [s ->].
    change 1 with (String.length nl). rewrite str_drop_last_append.
    rewrite has_char_app in Hb. by apply orb_false_iff in Hb as [? _]. }
  destruct (cut_last_newline t) as [|c r] eqn:Ecut.
  - rewrite (_render_string_unfold _ _ _ _ _ _ []); [done|].
    unfold parse. by rewrite Hcr, Ecut.
  - rewrite (_render_string_unfold _ _ _ _ _ _ [TemplateData (String c r)]).
    + simpl. by rewrite append_nil_r.
    + unfold parse. rewrite Hcr, Ecut. by apply parse_source_literal.
Qed.

(** X12.  A text without braces is a template that gives itself: it is
    rendered to the same text when it does not end with a newline and when
    it ends with one newline after a line that is not empty.  A text that
    ends with two newlines loses the last one. *)
Theorem literal_text_round_trip (t s : string) variables u paths (w : world) :
  has_char "{" t = false ->
  has_char CR t = false ->
  (endswith t nl = false ->
   _render_string t variables u paths true [] w = Ok t) /\
  (t = s +:+ nl -> s <> "" -> endswith s nl = false ->
   _render_string t variables u paths true [] w = Ok t) /\
  (t = s +:+ nl +:+ nl ->
   _render_string t variables u paths true [] w = Ok (s +:+ nl)).
Proof.
  intros Hb Hcr. rewrite (render_literal _ _ _ _ _ Hb Hcr).
  unfold cut_last_newline, repair_newline. split; [|split].
  - intros He. rewrite He.
    destruct (String.eqb (last_item (split LF t)) "") eqn:E; [|done].
    apply String.eqb_eq, last_line_empty in E as [->|E]; [done|congruence].
  - intros -> Hs He.
    assert (endswith (s +:+ nl) nl = true) as -> by (apply endswith_spec; eauto).
    change 1 with (String.length nl). rewrite str_drop_last_append.
    rewrite last_line_append_nl. simpl.
    destruct (String.eqb (last_item (split LF s)) "") eqn:E; [|done].
    apply String.eqb_eq, last_line_empty in E as [->|E]; [done|congruence].
  - intros ->.
    assert (endswith (s +:+ nl +:+ nl) nl = true) as ->.
    { apply endswith_spec. exists (s +:+ nl). by rewrite append_assoc. }
    change 1 with (String.length nl).
    rewrite <-append_assoc, str_drop_last_append.
    by rewrite !last_line_append_nl.
Qed.

Lemma literal_text_round_trip_witness :
  _render_string "a: b" ∅ StrictUndefined [] true [] world0 = Ok "a: b" /\
  _render_string ("a: b" +:+ nl) ∅ StrictUndefined [] true [] world0
    = Ok ("a: b" +:+ nl) /\
  _render_string ("a: b" +:+ nl +:+ nl) ∅ StrictUndefined [] true [] world0
    = Ok ("a: b" +:+ nl).
Proof.
  destruct (literal_text_round_trip "a: b" "" ∅ StrictUndefined [] world0
              eq_refl eq_refl) as (H1 & _ & _).
  destruct (literal_text_round_trip ("a: b" +:+ nl) "a: b" ∅ StrictUndefined
              [] world0 eq_refl eq_refl) as (_ & H2 & _).
  destruct (literal_text_round_trip ("a: b" +:+ nl +:+ nl) "a: b" ∅
              StrictUndefined [] world0 eq_refl eq_refl) as (_ & _ & H3).
  split; [exact (H1 eq_refl)|]. split; [|exact (H3 eq_refl)].
  apply H2; [reflexivity|discriminate|reflexivity].
Defined.

End LiteralText.

(** ** Recursive mode: directories and files *)

Section Walk.

(** X13.  [mkdir_p] returns true exactly when the path is a directory at the
    end, as its documentation says; it never touches a file; and called
    again it returns the same without a change. *)
Theorem mkdir_p_directory_at_the_end (path : string) (w : world) :
  let r := mkdir_p path w in
  (exists b, r.2 = Ok b /\ (b = true <-> path ∈ dirs r.1)) /\
  fs r.1 = fs w /\
  mkdir_p path r.1 = (r.1, r.2).
Proof.
  assert (forall w', path ∈ dirs w' -> mkdir_p path w' = (w', Ok true)) as Hdir.
  { intros w' H. unfold mkdir_p. by rewrite bool_decide_true. }
  assert (exists w' b,
            mkdir_p path w = (w', Ok b) /\ (b = true <-> path ∈ dirs w') /\
            fs w' = fs w /\
            mkdir_p path w' = (w', Ok b)) as (w' & b & E & H1 & H3 & H4).
  { destruct (decide (path ∈ dirs w)) as [Hd|Hd].
    { exists w, true. rewrite !(Hdir w Hd). by repeat split. }
    assert (path ∈ dirs (with_dir w path)) as Hnew
      by (by apply elem_of_union_l, elem_of_singleton_2).
    unfold mkdir_p at 1. rewrite (bool_decide_false _ Hd).
    destruct (bool_decide (is_Some (fs w !! path))) eqn:Ef.
    { exists w, false. unfold mkdir_p. rewrite (bool_decide_false _ Hd), Ef.
      by repeat split. }
    destruct (bool_decide (path ∈ readonly w)) eqn:Er.
    { exists w, false. unfold mkdir_p.
      rewrite (bool_decide_false _ Hd), Ef, Er. by repeat split. }
    exists (with_dir w path), true. rewrite (Hdir _ Hnew). by repeat split. }
  rewrite E. simpl. split; [|done]. by exists b.
Qed.

(** X14.  When the source path, which the normalization leaves as it is,
    is not a directory, [main] writes the error to the standard error and
    exits with status 1: the target directory is not made and no file is
    touched. *)
Theorem source_not_a_directory (a : Renvtpl.args) (w : world) :
  normpath (absolute w (SOURCE_DIRECTORY a)) = absolute w (SOURCE_DIRECTORY a) ->
  absolute w (SOURCE_DIRECTORY a) ∉ dirs w ->
  let r := Renvtpl.main a w in
  r.2 = Raise (SystemExit 1) /\
  fs r.1 = fs w /\ dirs r.1 = dirs w /\
  events r.1 =
    events w ++
    [EvStderr ("ERROR: " +:+ absolute w (SOURCE_DIRECTORY a) +:+
               " is not a directory" +:+ nl)].
Proof.
  intros _ H. unfold Renvtpl.main.
  cbv [mbind io_bind abspath get_world]. fold (absolute w (SOURCE_DIRECTORY a)).
  rewrite (bool_decide_false _ H). by repeat split.
Qed.

Lemma source_not_a_directory_witness :
  let a := {| SOURCE_DIRECTORY := "/missing"; TARGET_DIRECTORY := "/new";
              die_on_missing := false; extra_var := [];
              extra_search_path := [] |} in
  (Renvtpl.main a world4).2 = Raise (SystemExit 1) /\
  dirs (Renvtpl.main a world4).1 = dirs world4.
Proof.
  intros a.
  destruct (source_not_a_directory a world4) as (H1 & _ & H2 & _).
  - reflexivity.
  - simpl. intros [H|H]%elem_of_union; apply elem_of_singleton_1 in H;
      discriminate.
  - exact (conj H1 H2).
Defined.

(** X15.  The source and target paths being left as they are by the
    normalization: when the target exists as a file, or its parent
    directory exists and the target cannot be made in it, [main] writes
    the error to the standard error and exits with status 1 before the
    source is walked; nothing is made. *)
Theorem target_cannot_be_created (a : Renvtpl.args) (w : world) :
  normpath (absolute w (SOURCE_DIRECTORY a)) = absolute w (SOURCE_DIRECTORY a) ->
  normpath (absolute w (TARGET_DIRECTORY a)) = absolute w (TARGET_DIRECTORY a) ->
  absolute w (SOURCE_DIRECTORY a) ∈ dirs w ->
  absolute w (TARGET_DIRECTORY a) ∉ dirs w ->
  is_Some (fs w !! absolute w (TARGET_DIRECTORY a)) \/
    (dirname (absolute w (TARGET_DIRECTORY a)) ∈ dirs w /\
     absolute w (TARGET_DIRECTORY a) ∈ readonly w) ->
  let r := Renvtpl.main a w in
  r.2 = Raise (SystemExit 1) /\
  fs r.1 = fs w /\ dirs r.1 = dirs w /\
  events r.1 =
    events w ++
    [EvStderr ("ERROR: can't create " +:+ absolute w (TARGET_DIRECTORY a) +:+
               " as a directory" +:+ nl)].
Proof.
  intros _ _ Hs Ht Hno. unfold Renvtpl.main.
  cbv [mbind io_bind abspath get_world check_directory_or_create_it_or_die
         mkdir_p].
  fold (absolute w (SOURCE_DIRECTORY a)) (absolute w (TARGET_DIRECTORY a)).
  rewrite (bool_decide_true _ Hs). cbv beta iota delta [negb].
  rewrite (bool_decide_false _ Ht).
  destruct Hno as [Hf|[_ Hr]].
  - rewrite (bool_decide_true _ Hf). by repeat split.
  - rewrite (bool_decide_true _ Hr).
    destruct (bool_decide (is_Some _)); by repeat split.
Qed.

Lemma target_cannot_be_created_witness :
  let a := {| SOURCE_DIRECTORY := "/src"; TARGET_DIRECTORY := "/dst/sub";
              die_on_missing := false; extra_var := [];
              extra_search_path := [] |} in
  (Renvtpl.main a world4).2 = Raise (SystemExit 1) /\
  fs (Renvtpl.main a world4).1 = fs world4.
Proof.
  intros a.
  destruct (target_cannot_be_created a world4) as (H1 & H2 & _).
  - reflexivity.
  - reflexivity.
  - simpl. apply elem_of_union_l, elem_of_singleton_2. reflexivity.
  - simpl. intros [H|H]%elem_of_union; apply elem_of_singleton_1 in H;
      discriminate.
  - left. by exists "a file".
  - exact (conj H1 H2).
Defined.

(** X16.  A binary file is copied as it is, with its name: the target holds
    the content of the source, nothing is rendered, and the extra
    variables are not read, so that one without a comma does no harm. *)
Theorem binary_file_is_copied (a : Renvtpl.args) (root target_root f c : string)
    (w : world) :
  path_join root f ∈ binary w ->
  fs w !! path_join root f = Some c ->
  path_join target_root f ∉ readonly w ->
  let r := process_one a root target_root f w in
  r.2 = Ok () /\
  fs r.1 = <[path_join target_root f := c]> (fs w) /\
  events r.1 =
    events w ++ [EvCopy (path_join root f) (path_join target_root f)].
Proof.
  intros Hb Hs Hrw. unfold process_one.
  cbv [mbind io_bind is_binary copy].
  rewrite (bool_decide_true _ Hb), Hs, (bool_decide_false _ Hrw).
  by repeat split.
Qed.

Lemma binary_file_is_copied_witness :
  let r := process_one args4 "/src" "/dst" "logo.png" world4 in
  r.2 = Ok () /\
  fs r.1 !! "/dst/logo.png" = Some "{{ not a template }}".
Proof.
  destruct (binary_file_is_copied args4 "/src" "/dst" "logo.png"
              "{{ not a template }}" world4) as (H1 & H2 & _).
  - simpl. apply elem_of_singleton_2. reflexivity.
  - reflexivity.
  - simpl. intros H. apply elem_of_singleton_1 in H. discriminate.
  - split; [exact H1|]. rewrite H2. apply lookup_insert_eq.
Defined.

(** X17.  A text file that is rendered: the target of the same name holds the
    rendered text and nothing of what it held before; it was opened, then
    written once. *)
Theorem text_file_is_rendered (a : Renvtpl.args)
    (root target_root f c newc : string) (w : world) :
  path_join root f ∉ binary w ->
  fs w !! path_join root f = Some c ->
  path_join target_root f ∉ readonly w ->
  render_step a c w = Ok newc ->
  let r := process_one a root target_root f w in
  r.2 = Ok () /\
  fs r.1 = <[path_join target_root f := newc]> (fs w) /\
  events r.1 =
    events w ++ [EvOpen (path_join target_root f);
                 EvWrite (path_join target_root f) newc].
Proof.
  intros Hb Hs Hrw Hr.
  rewrite (process_one_text a root target_root f c w Hb Hs Hrw), Hr.
  unfold file_write. simpl.
  rewrite lookup_insert_eq, insert_insert_eq. simpl.
  by rewrite <-app_assoc.
Qed.

Lemma text_file_is_rendered_witness :
  let r := process_one args1 "/src" "/dst" "a.conf" world4 in
  r.2 = Ok () /\
  fs r.1 !! "/dst/a.conf" = Some ("port: 9000" +:+ nl).
Proof.
  destruct (text_file_is_rendered args1 "/src" "/dst" "a.conf"
              ("port: {{ PORT }}" +:+ nl) ("port: 9000" +:+ nl) world4)
    as (H1 & H2 & _).
  - simpl. intros H. apply elem_of_singleton_1 in H. discriminate.
  - reflexivity.
  - simpl. intros H. apply elem_of_singleton_1 in H. discriminate.
  - reflexivity.
  - split; [exact H1|]. rewrite H2. apply lookup_insert_eq.
Defined.



(** X19.  A sub-directory whose path in the target is taken by a file, or
    cannot be made: the walk ends with an [Exception] that nothing
    catches, before the other sub-directories are made and before any file
    of the directory is processed, and the world is as it was. *)
Theorem subdirectory_cannot_be_created (a : Renvtpl.args)
    (src tgt d : string) (ds files : list string) (w : world) :
  path_join tgt d ∉ dirs w ->
  is_Some (fs w !! path_join tgt d) \/ path_join tgt d ∈ readonly w ->
  process_directory a src tgt (src, (d :: ds, files)) w
  = (w, Raise (Exception ("can't create " +:+ path_join tgt d +:+
                          " directory"))).
Proof.
  intros Hd Hno. unfold process_directory. rewrite String.eqb_refl.
  cbv [mbind io_bind]. simpl for_each. cbv [mbind io_bind mkdir_p].
  rewrite (bool_decide_false _ Hd).
  destruct Hno as [Hf|Hr].
  - by rewrite (bool_decide_true _ Hf).
  - rewrite (bool_decide_true _ Hr). by destruct (bool_decide (is_Some _)).
Qed.

Lemma subdirectory_cannot_be_created_witness :
  process_directory args4 "/src" "/dst"
    ("/src", (["sub"], ["logo.png"; "a.conf"])) world4
  = (world4, Raise (Exception "can't create /dst/sub directory")).
Proof.
  apply (subdirectory_cannot_be_created args4 "/src" "/dst" "sub" []
           ["logo.png"; "a.conf"] world4).
  - simpl. intros [H|H]%elem_of_union; apply elem_of_singleton_1 in H;
      discriminate.
  - left. by exists "a file".
Defined.

Lemma extra_variables_app l1 l2 acc :
  extra_variables (l1 ++ l2) acc =
  m ← extra_variables l1 acc; extra_variables l2 m.
Proof.
  revert acc. induction l1 as [|x l1 IH]; intros acc; [done|].
  rewrite <-app_comm_cons, !extra_variables_cons.
  destruct (index (split "," x) 0) as [k|e]; simpl; [|done].
  destruct (index (split "," x) 1) as [v|e]; simpl; [|done].
  apply IH.
Qed.

(** X20.  When a name is given by several extra variables, the last one wins:
    after any arguments that are read without error, an argument with a
    name and a value gives that value to the name and leaves the other
    names as they were. *)
Theorem extra_variables_last_wins (l : list string) (name val : string)
    (acc m : gmap string string) :
  has_char "," name = false ->
  has_char "," val = false ->
  extra_variables l acc = Ok m ->
  extra_variables (l ++ [name +:+ "," +:+ val]) acc
  = Ok (<[name := val]> m).
Proof.
  intros Hn Hv Hl. rewrite extra_variables_app, Hl.
  change (extra_variables [name +:+ "," +:+ val] m = Ok (<[name := val]> m)).
  by rewrite extra_variables_cons, extra_var_item.
Qed.

Lemma extra_variables_last_wins_witness :
  extra_variables (["HOST,a"; "PORT,1"] ++ ["HOST" +:+ "," +:+ "b"]) ∅
  = Ok (<["HOST" := "b"]> (<["PORT" := "1"]> {[ "HOST" := "a" ]})).
Proof.
  apply (extra_variables_last_wins ["HOST,a"; "PORT,1"] "HOST" "b" ∅);
    reflexivity.
Defined.

End Walk.
